(** * pyvivint: the VivintSky cloud client ([pyvivint/vivintskyapi.py])

    A shallow embedding of class [VivintSkyApi]: the session check, the login
    exchange, the request dispatcher every call goes through, the endpoint
    operations and the Z-Wave device cache.

    The coroutines of the class are written once, as terms of a small
    program monad [Prog] whose only suspension point is the network call
    ([Await]).  Two semantics are given to those terms:

    - [run], which executes one coroutine to completion against a scripted
      server (what [await coroutine] does when nothing else is scheduled);
    - [resume] / [run_schedule], which execute a pool of coroutines of one
      event loop, switching between them at their network calls only.  *)

From Stdlib Require Import ZArith String Ascii List Bool Lia SpecFloat.
From stdpp Require Import gmap strings list fin_maps pretty.

Set Warnings "-register-all".

Open Scope Z_scope.
Open Scope string_scope.
Open Scope list_scope.

(** ** Values *)

(** What [json.loads] builds: [None], [bool], [int], [float], [str], [list]
    and [dict] (its items in insertion order, keys distinct). *)
Inductive json : Type :=
| JNull
| JBool (b : bool)
| JInt (n : Z)
| JFloat (f : spec_float)
| JStr (s : string)
| JList (l : list json)
| JDict (items : list (string * json)).

(** Python's truth value of such an object, as [if not authuser_data] tests
    it: [None], [False], zero, and the empty string, list and dict are false. *)
Definition truthy (v : json) : bool :=
  match v with
  | JNull => false
  | JBool b => b
  | JInt n => negb (Z.eqb n 0)
  | JFloat (S754_zero _) => false
  | JFloat _ => true
  | JStr s => negb (String.eqb s "")
  | JList l => match l with [] => false | _ :: _ => true end
  | JDict items => match items with [] => false | _ :: _ => true end
  end.

(** Naive [datetime] objects, as the number of microseconds since
    0001-01-01T00:00:00: their order is the order of these numbers. *)
Definition datetime : Type := Z.

(** The exceptions that the module raises or lets through. *)
Inductive exn : Type :=
| VivintSkyApiAuthenticationError (arg : json)
| VivintSkyApiError (msg : string)
| ClientResponseError (status : Z)      (* aiohttp: [raise_for_status] *)
| ClientConnectionError (msg : string)  (* aiohttp: the transport failed *)
| ContentTypeError                      (* aiohttp: [resp.json()] on a body that is no JSON *)
| RuntimeError (msg : string)           (* aiohttp: request on a closed session *)
| AttributeError (cls attr : string)
| KeyError (key : string)
| TypeError (msg : string)
| ValueError (msg : string)
| RecursionError.                       (* the call depth of the model is used up *)

Inductive result (A : Type) : Type :=
| Ok (a : A)
| Raise (e : exn).
Arguments Ok {A} a.
Arguments Raise {A} e.

(** ** The objects of the client *)

(** A cookie of the jar ([http.cookies.Morsel]); only [expires] is read. *)
Record Morsel : Type := {
  value : string;
  expires : string
}.

(** [aiohttp.ClientSession], as far as the class looks into it:
    [cookie_jar._cookies] (domain, then cookie name) and [closed]. *)
Record ClientSession : Type := {
  cookies : gmap string (gmap string Morsel);
  closed : bool
}.

(** The instance attributes set by [__init__]. *)
Record VivintSkyApi : Type := {
  __username : string;
  __password : string;
  __client_session : ClientSession;
  __has_custom_client_session : bool;
  __zwave_device_info : gmap string (list string)
}.

Inductive Method : Type := GET | POST | PUT.

(** A value passed in [params]. *)
Inductive param : Type :=
| PStr (s : string)
| PTime (t : datetime).

(** One call of [session.get], [session.post] or [session.put].
    [own_session] tells the session it goes through: [self.__client_session]
    or a fresh [aiohttp.ClientSession()]. *)
Record Request : Type := {
  own_session : bool;
  method : Method;
  url : string;
  headers : option (list (string * string));
  params : option (list (string * param));
  data : option string;
  allow_redirects : option bool
}.

(** [aiohttp.ClientResponse], by what the class reads of it: [status],
    [headers], [text()], [json()] ([None] when it raises), [request_info]
    (as it prints), and the cookies the response sets, each with the domain
    under which the jar files it. *)
Record Response : Type := {
  status : Z;
  resp_headers : list (string * string);
  text : string;
  json_body : option json;
  request_info : string;
  set_cookies : list (string * string * Morsel)
}.

(** What comes back for a request, and when. *)
Inductive Reply : Type :=
| Arrives (at_time : datetime) (resp : Response)
| Fails (at_time : datetime) (e : exn).

(** What a run leaves behind: requests sent, log records, the closing of
    the client session, and (ghost) entries of the methods under study. *)
Inductive event : Type :=
| Sent (req : Request)
| Logged (level msg : string)
| SessionClosed
| Called (name : string).

(** The client instance and its surroundings: the wall clock, the replies
    the network will deliver, in order, and the events so far. *)
Record World : Type := {
  self : VivintSkyApi;
  clock : datetime;
  server : list Reply;
  trace : list event
}.

Definition set_self (c : VivintSkyApi) (w : World) : World :=
  {| self := c; clock := clock w; server := server w; trace := trace w |}.

Definition add_event (ev : event) (w : World) : World :=
  {| self := self w; clock := clock w; server := server w;
     trace := trace w ++ [ev] |}.

Definition set_client_session (s : ClientSession) (c : VivintSkyApi) : VivintSkyApi :=
  {| __username := __username c; __password := __password c;
     __client_session := s;
     __has_custom_client_session := __has_custom_client_session c;
     __zwave_device_info := __zwave_device_info c |}.

Definition set_zwave_device_info (m : gmap string (list string)) (c : VivintSkyApi)
  : VivintSkyApi :=
  {| __username := __username c; __password := __password c;
     __client_session := __client_session c;
     __has_custom_client_session := __has_custom_client_session c;
     __zwave_device_info := m |}.

(** ** The program monad

    A coroutine returns or raises, reads and writes the attributes of
    [self], reads the clock, leaves an event, or waits for the network:
    [Await req k] sends [req] and goes on as [k resp] when the response
    [resp] is there.  Reading the body of a response ([text()], [json()])
    is taken as part of its arrival.  A [Throw] ends the coroutine: the
    module has no [try]; leaving an [async with] block only releases the
    response or the session and is not modelled. *)

Inductive Prog (A : Type) : Type :=
| Ret (a : A)
| Throw (e : exn)
| GetSelf (k : VivintSkyApi -> Prog A)
| PutSelf (c : VivintSkyApi) (k : Prog A)
| UtcNow (k : datetime -> Prog A)
| Emit (ev : event) (k : Prog A)
| Await (req : Request) (k : Response -> Prog A).
Arguments Ret {A} a.
Arguments Throw {A} e.
Arguments GetSelf {A} k.
Arguments PutSelf {A} c k.
Arguments UtcNow {A} k.
Arguments Emit {A} ev k.
Arguments Await {A} req k.

Fixpoint bind {A B : Type} (m : Prog A) (f : A -> Prog B) : Prog B :=
  match m with
  | Ret a => f a
  | Throw e => Throw e
  | GetSelf k => GetSelf (fun c => bind (k c) f)
  | PutSelf c k => PutSelf c (bind k f)
  | UtcNow k => UtcNow (fun t => bind (k t) f)
  | Emit ev k => Emit ev (bind k f)
  | Await req k => Await req (fun r => bind (k r) f)
  end.

Declare Scope prog_scope.
Delimit Scope prog_scope with prog.
Notation "x <- m ;; k" := (bind m (fun x => k))
  (at level 100, m at next level, right associativity) : prog_scope.
Notation "m ;; k" := (bind m (fun _ => k))
  (at level 100, right associativity) : prog_scope.
Open Scope prog_scope.

Definition get_self : Prog VivintSkyApi := GetSelf Ret.
Definition put_self (c : VivintSkyApi) : Prog unit := PutSelf c (Ret tt).
Definition utcnow : Prog datetime := UtcNow Ret.
Definition emit (ev : event) : Prog unit := Emit ev (Ret tt).
Definition await (req : Request) : Prog Response := Await req Ret.

(** ** The transport *)

(** [cookie_jar.update_cookies]: each cookie of the response is filed under
    its domain and name. *)
Definition update_cookies (new : list (string * string * Morsel))
    (jar : gmap string (gmap string Morsel)) : gmap string (gmap string Morsel) :=
  fold_left
    (fun j '(domain, name, m) => <[domain := <[name := m]> (default ∅ (j !! domain))]> j)
    new jar.

(** [jar._cookies[domain].get(name)]: [_cookies] is a [defaultdict], a
    domain without cookies gives an empty [SimpleCookie]. *)
Definition jar_get (jar : gmap string (gmap string Morsel)) (domain name : string)
  : option Morsel :=
  default ∅ (jar !! domain) !! name.

(** A response that came through the client's own session leaves its
    cookies in that session's jar; a fresh session's jar is dropped with it. *)
Definition store_cookies (req : Request) (resp : Response) (c : VivintSkyApi)
  : VivintSkyApi :=
  if own_session req then
    set_client_session
      {| cookies := update_cookies (set_cookies resp) (cookies (__client_session c));
         closed := closed (__client_session c) |} c
  else c.

(** A closed session refuses to send. *)
Definition refused (req : Request) (w : World) : bool :=
  own_session req && closed (__client_session (self w)).

(** The reply to the request being waited for arrives: the clock has moved
    on, the reply is off the wire, and a response has left its cookies. *)
Definition receive (req : Request) (w : World) : result Response * World :=
  match server w with
  | [] => (Raise (ClientConnectionError "no reply"), w)
  | Arrives t resp :: rest =>
      (Ok resp,
       {| self := store_cookies req resp (self w); clock := t; server := rest;
          trace := trace w |})
  | Fails t e :: rest =>
      (Raise e, {| self := self w; clock := t; server := rest; trace := trace w |})
  end.

(** ** Running one coroutine to completion *)

Fixpoint run {A : Type} (p : Prog A) (w : World) : result A * World :=
  match p with
  | Ret a => (Ok a, w)
  | Throw e => (Raise e, w)
  | GetSelf k => run (k (self w)) w
  | PutSelf c k => run k (set_self c w)
  | UtcNow k => run (k (clock w)) w
  | Emit ev k => run k (add_event ev w)
  | Await req k =>
      if refused req w then (Raise (RuntimeError "Session is closed"), w)
      else
        match receive req (add_event (Sent req) w) with
        | (Ok resp, w') => run (k resp) w'
        | (Raise e, w') => (Raise e, w')
        end
  end.

(** ** Running several coroutines of one event loop *)

(** A coroutine is ready to run, or suspended on a request it has sent, or
    has finished. *)
Inductive task (A : Type) : Type :=
| Ready (p : Prog A)
| Blocked (req : Request) (k : Response -> Prog A)
| Finished (r : result A).
Arguments Ready {A} p.
Arguments Blocked {A} req k.
Arguments Finished {A} r.

(** A coroutine runs without interruption up to its next network call,
    sends the request and suspends. *)
Fixpoint advance {A : Type} (p : Prog A) (w : World) : task A * World :=
  match p with
  | Ret a => (Finished (Ok a), w)
  | Throw e => (Finished (Raise e), w)
  | GetSelf k => advance (k (self w)) w
  | PutSelf c k => advance k (set_self c w)
  | UtcNow k => advance (k (clock w)) w
  | Emit ev k => advance k (add_event ev w)
  | Await req k =>
      if refused req w then (Finished (Raise (RuntimeError "Session is closed")), w)
      else (Blocked req k, add_event (Sent req) w)
  end.

(** The event loop gives a task its turn: a ready task starts, a suspended
    task takes the next reply off the wire and goes on. *)
Definition resume {A : Type} (t : task A) (w : World) : task A * World :=
  match t with
  | Ready p => advance p w
  | Blocked req k =>
      match receive req w with
      | (Ok resp, w') => advance (k resp) w'
      | (Raise e, w') => (Finished (Raise e), w')
      end
  | Finished r => (Finished r, w)
  end.

(** A schedule names, turn by turn, the task that runs next. *)
Definition turn {A : Type} (i : nat) (st : list (task A) * World)
  : list (task A) * World :=
  match fst st !! i with
  | Some t => let '(t', w') := resume t (snd st) in (<[i := t']> (fst st), w')
  | None => st
  end.

Definition run_schedule {A : Type} (sched : list nat) (st : list (task A) * World)
  : list (task A) * World :=
  fold_left (fun s i => turn i s) sched st.

(** How often a method was entered, by the ghost marks of the trace. *)
Definition is_call (name : string) (ev : event) : bool :=
  match ev with
  | Called n => String.eqb n name
  | _ => false
  end.

Definition calls (name : string) (evs : list event) : nat :=
  length (filter (fun ev => is_call name ev = true) evs).

(** ** Small helpers of the language and of aiohttp *)

Definition lower_ascii (c : ascii) : ascii :=
  let n := nat_of_ascii c in
  if (Nat.leb 65 n && Nat.leb n 90)%bool then ascii_of_nat (n + 32) else c.

Fixpoint lower (s : string) : string :=
  match s with
  | EmptyString => EmptyString
  | String c s' => String (lower_ascii c) (lower s')
  end.

(** [resp.headers.get(name)]: the headers are a case-insensitive multidict,
    [get] gives the first value stored under the name, or [None]. *)
Fixpoint headers_get (name : string) (hs : list (string * string)) : option string :=
  match hs with
  | [] => None
  | (k, v) :: hs' =>
      if String.eqb (lower k) (lower name) then Some v else headers_get name hs'
  end.

Fixpoint items_get (key : string) (items : list (string * json)) : option json :=
  match items with
  | [] => None
  | (k, v) :: items' => if String.eqb k key then Some v else items_get key items'
  end.

(** [data[key]] for a string key, on whatever [json()] returned. *)
Definition getitem (d : json) (key : string) : Prog json :=
  match d with
  | JDict items =>
      match items_get key items with
      | Some v => Ret v
      | None => Throw (KeyError key)
      end
  | JList _ => Throw (TypeError "list indices must be integers or slices, not str")
  | JStr _ => Throw (TypeError "string indices must be integers")
  | _ => Throw (TypeError "object is not subscriptable")
  end.

(** [await resp.json(encoding="utf-8")]. *)
Definition resp_json (resp : Response) : Prog json :=
  match json_body resp with
  | Some v => Ret v
  | None => Throw ContentTypeError
  end.

(** [resp.raise_for_status()]: raises from 400 on, and only then. *)
Definition raise_for_status (resp : Response) : Prog unit :=
  if Z.leb 400 (status resp) then Throw (ClientResponseError (status resp)) else Ret tt.

(** [s.split(sep)] for a non-empty [sep]: cut at each occurrence of [sep],
    found from the left and not overlapping.  [skip] counts the characters of
    an occurrence still to be passed over, [acc] is the piece being read. *)
Fixpoint split_from (sep : string) (skip : nat) (acc : string) (s : string)
  : list string :=
  match s with
  | EmptyString => [acc]
  | String c s' =>
      match skip with
      | S k => split_from sep k acc s'
      | O =>
          if String.prefix sep s
          then acc :: split_from sep (String.length sep - 1) EmptyString s'
          else split_from sep 0 (acc +:+ String c EmptyString) s'
      end
  end.

Definition split (sep s : string) : list string := split_from sep 0 EmptyString s.

(** [_LOGGER.error(msg)] and [_LOGGER.info(msg)]. *)
Definition logger_error (msg : string) : Prog unit := emit (Logged "ERROR" msg).
Definition logger_info (msg : string) : Prog unit := emit (Logged "INFO" msg).

Definition lift {A : Type} (r : result A) : Prog A :=
  match r with
  | Ok a => Ret a
  | Raise e => Throw e
  end.

(** *** Attribute lookup on the instance

    An instance of [VivintSkyApi] has the five attributes that [__init__]
    assigns (private names are stored under the class name) and what the
    class body defines; the class has no [__getattr__] and no base class
    but [object].  Any other name raises [AttributeError].  (The names
    that every object answers to, all of the form [__x__], are not listed:
    the module reads none of them.)  Objects that print with their address
    print here without it. *)
Inductive pyobject : Type :=
| OStr (s : string)
| OBool (b : bool)
| OOther (printed : string).

Definition methods : list string :=
  [ "__init__"; "is_session_valid"; "connect"; "disconnect"; "get_authuser_data";
    "get_panel_credentials"; "get_system_data"; "set_alarm_state";
    "set_garage_door_state"; "set_lock_state"; "request_camera_thumbnail";
    "get_camera_thumbnail_url"; "_VivintSkyApi__get_new_client_session";
    "_VivintSkyApi__get_vivintsky_session"; "_VivintSkyApi__get";
    "_VivintSkyApi__post"; "_VivintSkyApi__put"; "_VivintSkyApi__call";
    "get_zwave_details" ].

Definition getattr (c : VivintSkyApi) (name : string) : result pyobject :=
  if String.eqb name "_VivintSkyApi__username" then Ok (OStr (__username c))
  else if String.eqb name "_VivintSkyApi__password" then Ok (OStr (__password c))
  else if String.eqb name "_VivintSkyApi__client_session"
       then Ok (OOther "<aiohttp.client.ClientSession object>")
  else if String.eqb name "_VivintSkyApi__has_custom_client_session"
       then Ok (OBool (__has_custom_client_session c))
  else if String.eqb name "_VivintSkyApi__zwave_device_info" then Ok (OOther "<dict>")
  else if existsb (String.eqb name) methods
       then Ok (OOther ("<bound method VivintSkyApi." +:+ name +:+ ">"))
  else Raise (AttributeError "VivintSkyApi" name).

(** [str(v)], as an f-string field prints it. *)
Definition str (v : pyobject) : string :=
  match v with
  | OStr s => s
  | OBool true => "True"
  | OBool false => "False"
  | OOther printed => printed
  end.

(** The f-string field [{self.<name>}]. *)
Definition self_field (name : string) : Prog string :=
  c <- get_self ;;
  v <- lift (getattr c name) ;;
  Ret (str v).

(** ** The class *)

Definition VIVINT_API_ENDPOINT : string := "https://www.vivintsky.com/api".

(** [__get_new_client_session]: a session of its own, open, with an empty jar. *)
Definition __get_new_client_session : ClientSession :=
  {| cookies := ∅; closed := false |}.

(** [__init__].  In [client_session or self.__get_new_client_session()] a
    session object given by the caller is always true (the class defines
    neither [__bool__] nor [__len__]). *)
Definition __init__ (username password : string) (client_session : option ClientSession)
  : VivintSkyApi :=
  {| __username := username;
     __password := password;
     __client_session :=
       match client_session with
       | Some s => s
       | None => __get_new_client_session
       end;
     __has_custom_client_session :=
       match client_session with
       | Some _ => true
       | None => false
       end;
     __zwave_device_info := ∅ |}.

(** [await self.__client_session.close()]. *)
Definition client_session_close : Prog unit :=
  c <- get_self ;;
  put_self (set_client_session
              {| cookies := cookies (__client_session c); closed := true |} c) ;;
  emit SessionClosed.

Definition disconnect : Prog unit :=
  c <- get_self ;;
  if negb (__has_custom_client_session c) then client_session_close else Ret tt.

(** The call [method(f"{VIVINT_API_ENDPOINT}/{path}", headers=headers,
    params=params, data=data, allow_redirects=allow_redirects)] of the
    dispatcher, [method] being a bound method of the client's session. *)
Definition api_request (method : Method) (path : string)
    (headers : option (list (string * string)))
    (params : option (list (string * param)))
    (data : option string) (allow_redirects : option bool) : Request :=
  {| own_session := true;
     method := method;
     url := VIVINT_API_ENDPOINT +:+ "/" +:+ path;
     headers := headers;
     params := params;
     data := data;
     allow_redirects := allow_redirects |}.

(** ** What the client takes from outside the module

    Four functions of other modules decide nothing here and are taken as
    given. *)
Class Library : Type := {
  (** [datetime.strptime(s, fmt)]; [None] when it raises [ValueError]. *)
  strptime : string -> string -> option datetime;
  (** [json.dumps(v)]. *)
  json_dumps : json -> string;
  (** [re.search] with the title pattern of [get_zwave_details], case
      ignored: group 1 of the match, [None] when there is no match. *)
  re_search_title : string -> option string;
  (** [ArmedState.name(state)], of [pyvivint/enums.py]. *)
  ArmedState_name : Z -> result string
}.

(** ** The methods that go through the dispatcher *)

Section Client.

Context {lib : Library}.

(** A [Morsel] is a [dict] with its reserved keys always present, hence
    never false: [not cookie] holds for [None] only. *)
Definition is_session_valid : Prog bool :=
  emit (Called "is_session_valid") ;;
  c <- get_self ;;
  let cookie := jar_get (cookies (__client_session c)) "www.vivintsky.com" "s" in
  match cookie with
  | None => Ret false
  | Some cookie =>
      match strptime (expires cookie) "%a, %d %b %Y %H:%M:%S %Z" with
      | None => Throw (ValueError "time data does not match format")
      | Some cookie_expiration =>
          now <- utcnow ;;
          Ret (if Z.gtb cookie_expiration now then true else false)
      end
  end.

(** The dispatcher calls [connect], which logs in through the dispatcher:
    the four methods are defined together, by recursion on a bound [fuel]
    on the depth of calls. *)
Fixpoint __call (fuel : nat) (method : Method) (path : string)
    (headers : option (list (string * string)))
    (params : option (list (string * param)))
    (data : option string) (allow_redirects : option bool) {struct fuel}
  : Prog Response :=
  match fuel with
  | O => Throw RecursionError
  | S n =>
      (if negb (String.eqb path "login") then
         valid <- is_session_valid ;;
         if negb valid then (connect n ;; Ret tt) else Ret tt
       else Ret tt) ;;
      await (api_request method path headers params data allow_redirects)
  end

with connect (fuel : nat) {struct fuel} : Prog json :=
  match fuel with
  | O => Throw RecursionError
  | S n =>
      emit (Called "connect") ;;
      c <- get_self ;;
      authuser_data <- __get_vivintsky_session n (__username c) (__password c) ;;
      if negb (truthy authuser_data)
      then Throw (VivintSkyApiAuthenticationError (JStr "Unable to login to Vivint."))
      else Ret authuser_data
  end

with __get_vivintsky_session (fuel : nat) (username password : string) {struct fuel}
  : Prog json :=
  match fuel with
  | O => Throw RecursionError
  | S n =>
      resp <- __post n "login"
                (Some (json_dumps (JDict [("username", JStr username);
                                          ("password", JStr password)]))) ;;
      data <- resp_json resp ;;
      if Z.eqb (status resp) 200 then Ret data
      else if Z.eqb (status resp) 401 then
        msg <- getitem data "msg" ;;
        Throw (VivintSkyApiAuthenticationError msg)
      else
        raise_for_status resp ;;
        Ret JNull
  end

with __post (fuel : nat) (path : string) (data : option string) {struct fuel}
  : Prog Response :=
  match fuel with
  | O => Throw RecursionError
  | S n => __call n POST path None None data None
  end.

Definition __get (fuel : nat) (path : string)
    (headers : option (list (string * string)))
    (params : option (list (string * param)))
    (allow_redirects : option bool) : Prog Response :=
  __call fuel GET path headers params None allow_redirects.

Definition __put (fuel : nat) (path : string)
    (headers : option (list (string * string))) (data : option string)
  : Prog Response :=
  __call fuel PUT path headers None data None.

Definition get_authuser_data (fuel : nat) : Prog json :=
  resp <- __get fuel "authuser" None None None ;;
  if Z.eqb (status resp) 200 then resp_json resp
  else Throw (VivintSkyApiAuthenticationError (JStr "Missing auth user data.")).

Definition set_alarm_state (fuel : nat) (panel_id partition_id state : Z)
  : Prog unit :=
  resp <- __put fuel
            (pretty panel_id +:+ "/" +:+ pretty partition_id +:+ "/armedstates")
            (Some [("Content-Type", "application/json;charset=UTF-8")])
            (Some (json_dumps (JDict [("system", JInt panel_id);
                                      ("partitionId", JInt partition_id);
                                      ("armState", JInt state);
                                      ("forceArm", JBool false)]))) ;;
  if negb (Z.eqb (status resp) 200) then
    let resp_body := text resp in
    name <- lift (ArmedState_name state) ;;
    logger_error ("failed to set state " +:+ name +:+ ". Code: "
                  +:+ pretty (status resp) +:+ ", body: " +:+ resp_body +:+ ","
                  +:+ "request url: " +:+ request_info resp) ;;
    name <- lift (ArmedState_name state) ;;
    id <- self_field "id" ;;
    Throw (VivintSkyApiError ("failed to set alarm status " +:+ name
                              +:+ " for panel " +:+ id))
  else Ret tt.

Definition request_camera_thumbnail (fuel : nat)
    (panel_id partition_id device_id : Z) : Prog unit :=
  resp <- __get fuel
            (pretty panel_id +:+ "/" +:+ pretty partition_id +:+ "/"
             +:+ pretty device_id +:+ "/request-camera-thumbnail")
            None None None ;;
  if (Z.ltb (status resp) 200 || Z.gtb (status resp) 299)%bool then
    id <- self_field "id" ;;
    logger_info ("failed to request thumbnail for camera id " +:+ id
                 +:+ ". Error code: " +:+ pretty (status resp))
  else Ret tt.

Definition get_camera_thumbnail_url (fuel : nat)
    (panel_id partition_id device_id : Z) (thumbnail_timestamp : datetime)
  : Prog (option string) :=
  resp <- __get fuel
            (pretty panel_id +:+ "/" +:+ pretty partition_id +:+ "/"
             +:+ pretty device_id +:+ "/camera-thumbnail")
            None (Some [("time", PTime thumbnail_timestamp)]) (Some false) ;;
  if negb (Z.eqb (status resp) 302) then
    id <- self_field "id" ;;
    logger_info ("failed to request thumbnail for camera id " +:+ id
                 +:+ ". Status code: " +:+ pretty (status resp)) ;;
    Ret None
  else Ret (headers_get "Location" (resp_headers resp)).

(** The lookup goes through a session of its own, not the client's. *)
Definition get_zwave_details (manufacturer_id product_id product_type_id : Z)
  : Prog (option (list string)) :=
  let zwave_lookup :=
    pretty manufacturer_id +:+ ":" +:+ pretty product_id +:+ ":"
    +:+ pretty product_type_id in
  c <- get_self ;;
  match __zwave_device_info c !! zwave_lookup with
  | Some device_info => Ret (Some device_info)
  | None =>
      response <- await {| own_session := false;
                           method := GET;
                           url := "http://openzwave.net/device-database/"
                                  +:+ zwave_lookup;
                           headers := None; params := None; data := None;
                           allow_redirects := None |} ;;
      if Z.eqb (status response) 200 then
        match re_search_title (text response) with
        | None => Throw (TypeError "'NoneType' object is not subscriptable")
        | Some title =>
            let result := split " - " title in
            c <- get_self ;;
            put_self (set_zwave_device_info
                        (<[zwave_lookup := result]> (__zwave_device_info c)) c) ;;
            Ret (Some result)
        end
      else
        raise_for_status response ;;
        Ret None
  end.

End Client.

(** ** The other endpoint operations

    [set_garage_door_state] and [set_lock_state] build their bodies from
    the keys of [pyvivint/constants.py] and name the door state with
    [pyvivint/enums.py]; both modules are taken as given. *)
Class Constants : Type := {
  (** [VivintDeviceAttribute.STATE]. *)
  VivintDeviceAttribute_STATE : string;
  (** [VivintDeviceAttribute.ID]. *)
  VivintDeviceAttribute_ID : string;
  (** [GarageDoorState.name(state)]. *)
  GarageDoorState_name : Z -> result string
}.

(** [d[k] = v] on the items of a dict: a key that is there keeps its
    place and takes the new value, a new key goes to the end. *)
Fixpoint dict_set (k : string) (v : json) (items : list (string * json))
  : list (string * json) :=
  match items with
  | [] => [(k, v)]
  | (k', v') :: rest =>
      if String.eqb k' k then (k', v) :: rest else (k', v') :: dict_set k v rest
  end.

(** The dict display [{k1: v1, k2: v2, ...}]: the items are set from left
    to right. *)
Definition dict_display (items : list (string * json)) : json :=
  JDict (fold_left (fun d kv => dict_set (fst kv) (snd kv) d) items []).

Section Endpoints.

Context {lib : Library} {cst : Constants}.

Definition get_panel_credentials (fuel : nat) (panel_id : Z) : Prog json :=
  resp <- __get fuel ("panel-login/" +:+ pretty panel_id) None None None ;;
  if Z.eqb (status resp) 200 then resp_json resp
  else Throw (VivintSkyApiAuthenticationError
                (JStr "Unable to retrieve panel credentials.")).

Definition get_system_data (fuel : nat) (panel_id : Z) : Prog json :=
  resp <- __get fuel ("systems/" +:+ pretty panel_id)
            (Some [("Accept-Encoding", "application/json")])
            (Some [("includerules", PStr "false")])
            None ;;
  if Z.eqb (status resp) 200 then resp_json resp
  else Throw (VivintSkyApiError "Unable to retrieve system data.").

Definition set_garage_door_state (fuel : nat)
    (panel_id partition_id device_id state : Z) : Prog unit :=
  resp <- __put fuel
            (pretty panel_id +:+ "/" +:+ pretty partition_id +:+ "/door/"
             +:+ pretty device_id)
            (Some [("Content-Type", "application/json;charset=utf-8")])
            (Some (json_dumps
                     (dict_display [(VivintDeviceAttribute_STATE, JInt state);
                                    (VivintDeviceAttribute_ID, JInt device_id)]))) ;;
  if negb (Z.eqb (status resp) 200) then
    name <- lift (GarageDoorState_name state) ;;
    logger_info ("failed to set state to " +:+ name +:+ " for garage door: "
                 +:+ pretty device_id +:+ " @ " +:+ pretty panel_id +:+ ":"
                 +:+ pretty partition_id) ;;
    Throw (VivintSkyApiError "failed to update garage door state")
  else Ret tt.

Definition set_lock_state (fuel : nat)
    (panel_id partition_id device_id : Z) (locked : bool) : Prog unit :=
  resp <- __put fuel
            (pretty panel_id +:+ "/" +:+ pretty partition_id +:+ "/locks/"
             +:+ pretty device_id)
            (Some [("Content-Type", "application/json;charset=utf-8")])
            (Some (json_dumps
                     (dict_display [(VivintDeviceAttribute_STATE, JBool locked);
                                    (VivintDeviceAttribute_ID, JInt device_id)]))) ;;
  if negb (Z.eqb (status resp) 200) then
    logger_info ("failed to set status locked: " +:+ str (OBool locked)
                 +:+ " for lock: " +:+ pretty device_id +:+ " @ "
                 +:+ pretty panel_id +:+ ":" +:+ pretty partition_id) ;;
    Throw (VivintSkyApiError "failed to update lock status")
  else Ret tt.

End Endpoints.

(** ** Notions used in the statements *)

Section Notions.

Context {lib : Library}.

Definition expires_format : string := "%a, %d %b %Y %H:%M:%S %Z".

(** The session cookie the check looks at. *)
Definition session_cookie (w : World) : option Morsel :=
  jar_get (cookies (__client_session (self w))) "www.vivintsky.com" "s".

(** What one network call adds to the trace. *)
Definition sent (req : Request) (w : World) : list event :=
  if refused req w then [] else [Sent req].

(** The request [__get_vivintsky_session] sends. *)
Definition login_request (username password : string) : Request :=
  api_request POST "login" None None
    (Some (json_dumps (JDict [("username", JStr username);
                              ("password", JStr password)]))) None.

(** What [__get_vivintsky_session] makes of the response to it. *)
Definition login_outcome (resp : Response) : result json :=
  match json_body resp with
  | None => Raise ContentTypeError
  | Some data =>
      if Z.eqb (status resp) 200 then Ok data
      else if Z.eqb (status resp) 401 then
        match data with
        | JDict items =>
            match items_get "msg" items with
            | Some msg => Raise (VivintSkyApiAuthenticationError msg)
            | None => Raise (KeyError "msg")
            end
        | JList _ => Raise (TypeError "list indices must be integers or slices, not str")
        | JStr _ => Raise (TypeError "string indices must be integers")
        | _ => Raise (TypeError "object is not subscriptable")
        end
      else if Z.leb 400 (status resp) then Raise (ClientResponseError (status resp))
      else Ok JNull
  end.

Definition may_return (authuser_data : json) : result json :=
  if truthy authuser_data then Ok authuser_data
  else Raise (VivintSkyApiAuthenticationError (JStr "Unable to login to Vivint.")).

Definition zwave_key (manufacturer_id product_id product_type_id : Z) : string :=
  pretty manufacturer_id +:+ ":" +:+ pretty product_id +:+ ":"
  +:+ pretty product_type_id.

(** The one network call of a lookup. *)
Definition zwave_request (key : string) : Request :=
  {| own_session := false; method := GET;
     url := "http://openzwave.net/device-database/" +:+ key;
     headers := None; params := None; data := None; allow_redirects := None |}.

(** What a lookup that missed makes of the reply, and what it stores. *)
Definition zwave_outcome (resp : Response) : result (option (list string)) :=
  if Z.eqb (status resp) 200 then
    match re_search_title (text resp) with
    | None => Raise (TypeError "'NoneType' object is not subscriptable")
    | Some title => Ok (Some (split " - " title))
    end
  else if Z.leb 400 (status resp) then Raise (ClientResponseError (status resp))
  else Ok None.

Definition zwave_store (key : string) (r : result (option (list string)))
    (w : World) : World :=
  match r with
  | Ok (Some info) =>
      set_self (set_zwave_device_info
                  (<[key := info]> (__zwave_device_info (self w))) (self w)) w
  | _ => w
  end.

(** [connects_at_most p n]: on no path through [p] is [connect] entered
    more than [n] times. *)
Fixpoint connects_at_most {A : Type} (p : Prog A) (n : nat) : Prop :=
  match p with
  | Ret _ => True
  | Throw _ => True
  | GetSelf k => forall c, connects_at_most (k c) n
  | PutSelf _ k => connects_at_most k n
  | UtcNow k => forall t, connects_at_most (k t) n
  | Emit ev k =>
      if is_call "connect" ev then
        match n with
        | O => False
        | S n' => connects_at_most k n'
        end
      else connects_at_most k n
  | Await _ k => forall resp, connects_at_most (k resp) n
  end.

(** The same bound for a task, whatever reply it is resumed with. *)
Definition task_connects_at_most {A : Type} (t : task A) (n : nat) : Prop :=
  match t with
  | Ready p => connects_at_most p n
  | Blocked _ k => forall resp, connects_at_most (k resp) n
  | Finished _ => True
  end.

(** A pool of two tasks that may enter [connect] [n1] and [n2] more times,
    in a world where the count cannot pass [bound]. *)
Definition pool_within {A : Type} (bound : nat) (st : list (task A) * World) : Prop :=
  exists (t1 t2 : task A) (n1 n2 : nat),
    fst st = [t1; t2] /\
    task_connects_at_most t1 n1 /\ task_connects_at_most t2 n2 /\
    (calls "connect" (trace (snd st)) + n1 + n2 <= bound)%nat.

(** A task given [n] turns in a row. *)
Fixpoint turns {A : Type} (n : nat) (st : task A * World) : task A * World :=
  match n with
  | O => st
  | S n' => turns n' (resume (fst st) (snd st))
  end.

End Notions.

(** ** Further notions used in the statements *)

Section MoreNotions.

Context {lib : Library}.

(** The world after the events [evs], the last of them a request that the
    server has answered with [resp] at [t]. *)
Definition answered (req : Request) (evs : list event) (t : datetime)
    (resp : Response) (rest : list Reply) (w : World) : World :=
  {| self := store_cookies req resp (self w); clock := t; server := rest;
     trace := trace w ++ evs |}.

(** [writes_nothing p]: [p] assigns no attribute of [self]. *)
Fixpoint writes_nothing {A : Type} (p : Prog A) : Prop :=
  match p with
  | Ret _ => True
  | Throw _ => True
  | GetSelf k => forall c, writes_nothing (k c)
  | PutSelf _ _ => False
  | UtcNow k => forall t, writes_nothing (k t)
  | Emit _ k => writes_nothing k
  | Await _ k => forall resp, writes_nothing (k resp)
  end.

(** Two states of the client that differ at most in the cookies of the
    session. *)
Definition same_but_cookies (c c' : VivintSkyApi) : Prop :=
  __username c' = __username c /\
  __password c' = __password c /\
  __has_custom_client_session c' = __has_custom_client_session c /\
  __zwave_device_info c' = __zwave_device_info c /\
  closed (__client_session c') = closed (__client_session c).

(** [sep.join(parts)]. *)
Fixpoint join (sep : string) (parts : list string) : string :=
  match parts with
  | [] => ""
  | [x] => x
  | x :: rest => x +:+ sep +:+ join sep rest
  end.

(** A string without a colon. *)
Fixpoint colon_free (s : string) : Prop :=
  match s with
  | EmptyString => True
  | String c s' => c <> ":"%char /\ colon_free s'
  end.

End MoreNotions.

(** ** Sample clients and servers

    The sample runs fix the four library functions on the handful of
    inputs those runs meet. *)

Module Sample.

Definition sample_strptime (s fmt : string) : option datetime :=
  if negb (String.eqb fmt "%a, %d %b %Y %H:%M:%S %Z") then None
  else if String.eqb s "Thu, 01 Jan 2026 00:00:00 GMT" then Some 63902822400000000
  else if String.eqb s "Fri, 01 Jan 2027 00:00:00 GMT" then Some 63934358400000000
  else None.

Definition sample_json_dumps (v : json) : string :=
  match v with
  | JDict [(k1, JStr v1); (k2, JStr v2)] =>
      "{" +:+ k1 +:+ ": " +:+ v1 +:+ ", " +:+ k2 +:+ ": " +:+ v2 +:+ "}"
  | _ => "{}"
  end.

Definition sample_re_search_title (body : string) : option string :=
  if String.eqb body "<html><title>Acme Co - Door Sensor</title></html>"
  then Some "Acme Co - Door Sensor"
  else None.

Definition sample_ArmedState_name (state : Z) : result string :=
  if Z.eqb state 0 then Ok "DISARMED"
  else if Z.eqb state 3 then Ok "ARMED_STAY"
  else if Z.eqb state 4 then Ok "ARMED_AWAY"
  else Raise (ValueError "unknown armed state").

#[global] Instance library : Library := {|
  strptime := sample_strptime;
  json_dumps := sample_json_dumps;
  re_search_title := sample_re_search_title;
  ArmedState_name := sample_ArmedState_name
|}.

(** 2026-06-01T00:00:00. *)
Definition now : datetime := 63915868800000000.

Definition fresh_cookie : Morsel :=
  {| value := "token"; expires := "Fri, 01 Jan 2027 00:00:00 GMT" |}.

Definition stale_cookie : Morsel :=
  {| value := "token"; expires := "Thu, 01 Jan 2026 00:00:00 GMT" |}.

Definition jar_with (m : Morsel) : gmap string (gmap string Morsel) :=
  {[ "www.vivintsky.com" := {[ "s" := m ]} ]}.

Definition client (jar : gmap string (gmap string Morsel)) : VivintSkyApi :=
  {| __username := "user@example.com"; __password := "secret";
     __client_session := {| cookies := jar; closed := false |};
     __has_custom_client_session := false;
     __zwave_device_info := ∅ |}.

Definition world (jar : gmap string (gmap string Morsel)) (replies : list Reply)
  : World :=
  {| self := client jar; clock := now; server := replies; trace := [] |}.

Definition response (code : Z) : Response :=
  {| status := code; resp_headers := []; text := "";
     json_body := Some (JDict []); request_info := "<RequestInfo>";
     set_cookies := [] |}.

(** A login accepted by the server: the identity payload and a session
    cookie good until 2027. *)
Definition login_ok : Response :=
  {| status := 200; resp_headers := []; text := "";
     json_body := Some (JDict [("u", JDict [("_id", JStr "abc")])]);
     request_info := "<RequestInfo>";
     set_cookies := [("www.vivintsky.com", "s", fresh_cookie)] |}.

(** A login refused by the server. *)
Definition login_rejected : Response :=
  {| status := 401; resp_headers := []; text := "";
     json_body := Some (JDict [("msg", JStr "Invalid credentials")]);
     request_info := "<RequestInfo>"; set_cookies := [] |}.

(** A client whose session ran out, and a server that accepts the login
    and then answers 200. *)
Definition expired_world : World :=
  world (jar_with stale_cookie) [Arrives now login_ok; Arrives now (response 200)].

(** A client with a session good until 2027, and one answer of the server. *)
Definition valid_world (resp : Response) : World :=
  world (jar_with fresh_cookie) [Arrives now resp].

(** A client made without a session, and one made with the caller's. *)
Definition own_session_world : World :=
  {| self := __init__ "user" "pw" None; clock := now; server := []; trace := [] |}.

Definition given_session_world : World :=
  {| self := __init__ "user" "pw" (Some __get_new_client_session);
     clock := now; server := []; trace := [] |}.

(** The page of the device database for key 1:2:3. *)
Definition acme_page : Response :=
  {| status := 200; resp_headers := [];
     text := "<html><title>Acme Co - Door Sensor</title></html>";
     json_body := None; request_info := "<RequestInfo>"; set_cookies := [] |}.

(** The thumbnail is ready: a redirect to its address. *)
Definition thumbnail_ready : Response :=
  {| status := 302; resp_headers := [("Location", "http://example/thumb.jpg")];
     text := ""; json_body := None; request_info := "<RequestInfo>";
     set_cookies := [] |}.

(** Two dispatches of [authuser] on the client whose session ran out; the
    server accepts both logins and answers both requests. *)
Definition two_dispatches : list (task Response) * World :=
  ([Ready (__call 5 GET "authuser" None None None None);
    Ready (__call 5 GET "authuser" None None None None)],
   world (jar_with stale_cookie)
     [Arrives now login_ok; Arrives now login_ok;
      Arrives now (response 200); Arrives now (response 200)]).

End Sample.

(** ** More sample clients and servers *)

Module Scenario.

Definition sample_GarageDoorState_name (state : Z) : result string :=
  if Z.eqb state 1 then Ok "CLOSED"
  else if Z.eqb state 5 then Ok "OPENED"
  else Raise (ValueError "unknown garage door state").

#[global] Instance constants : Constants := {|
  VivintDeviceAttribute_STATE := "s";
  VivintDeviceAttribute_ID := "_id";
  GarageDoorState_name := sample_GarageDoorState_name
|}.

(** A session cookie without an expiry date. *)
Definition session_only_cookie : Morsel := {| value := "token"; expires := "" |}.

(** A client whose session ran out, and a server that refuses the login. *)
Definition rejected_world : World :=
  Sample.world (Sample.jar_with Sample.stale_cookie)
    [Arrives Sample.now Sample.login_rejected].

(** A client that has the details of device 9:9:9 in its cache, and a
    server that has the page of device 1:2:3. *)
Definition cached_world : World :=
  {| self := set_zwave_device_info {[ "9:9:9" := ["Other Co"; "Siren"] ]}
               (Sample.client ∅);
     clock := Sample.now;
     server := [Arrives Sample.now Sample.acme_page];
     trace := [] |}.

(** A redirect that names no address. *)
Definition bare_redirect : Response :=
  {| status := 302; resp_headers := []; text := ""; json_body := None;
     request_info := "<RequestInfo>"; set_cookies := [] |}.

(** A login refused without a message, and an answer that is no JSON. *)
Definition rejected_without_msg : Response :=
  {| status := 401; resp_headers := []; text := "";
     json_body := Some (JDict [("error", JStr "denied")]);
     request_info := "<RequestInfo>"; set_cookies := [] |}.

Definition gateway_page : Response :=
  {| status := 200; resp_headers := []; text := "<html>Bad gateway</html>";
     json_body := None; request_info := "<RequestInfo>"; set_cookies := [] |}.

End Scenario.

(** * Properties *)

Section Properties.

Context {lib : Library}.

(** ** Running programs: general facts *)

Lemma run_bind {A B : Type} (m : Prog A) (f : A -> Prog B) (w : World) :
  run (bind m f) w =
  match run m w with
  | (Ok a, w') => run (f a) w'
  | (Raise e, w') => (Raise e, w')
  end.
Proof.
  revert w. induction m as [a|e|k IH|c k IH|k IH|ev k IH|req k IH]; intros w; simpl.
  - reflexivity.
  - reflexivity.
  - apply IH.
  - apply IH.
  - apply IH.
  - apply IH.
  - destruct (refused req w); [reflexivity|].
    destruct (receive req (add_event (Sent req) w)) as [[resp|e] w']; [apply IH|reflexivity].
Qed.

(** The trace only grows. *)
Lemma receive_trace (req : Request) (w : World) :
  trace (snd (receive req w)) = trace w.
Proof.
  unfold receive. destruct (server w) as [|[t resp|t e] rest]; reflexivity.
Qed.

Lemma run_trace_grows {A : Type} (p : Prog A) (w : World) :
  exists evs, trace (snd (run p w)) = trace w ++ evs.
Proof.
  revert w. induction p as [a|e|k IH|c k IH|k IH|ev k IH|req k IH]; intros w; simpl.
  - exists []. symmetry. apply app_nil_r.
  - exists []. symmetry. apply app_nil_r.
  - apply IH.
  - destruct (IH (set_self c w)) as [evs E]. exists evs. exact E.
  - apply IH.
  - destruct (IH (add_event ev w)) as [evs E]. exists (ev :: evs).
    rewrite E. simpl. rewrite <- app_assoc. reflexivity.
  - destruct (refused req w).
    + exists []. symmetry. apply app_nil_r.
    + pose proof (receive_trace req (add_event (Sent req) w)) as T.
      destruct (receive req (add_event (Sent req) w)) as [[resp|e] w'];
        simpl in T.
      * destruct (IH resp w') as [evs E]. exists (Sent req :: evs).
        rewrite E, T. simpl. rewrite <- app_assoc. reflexivity.
      * exists [Sent req]. simpl. exact T.
Qed.

(** ** Session validity *)

Lemma run_is_session_valid (w : World) :
  run is_session_valid w =
  (match session_cookie w with
   | None => Ok false
   | Some cookie =>
       match strptime (expires cookie) expires_format with
       | None => Raise (ValueError "time data does not match format")
       | Some t => Ok (Z.gtb t (clock w))
       end
   end,
   add_event (Called "is_session_valid") w).
Proof.
  unfold is_session_valid, session_cookie, expires_format. simpl.
  destruct (jar_get _ _ _) as [cookie|]; [|reflexivity].
  destruct (strptime _ _) as [t|]; [|reflexivity].
  simpl. destruct (Z.gtb t (clock w)); reflexivity.
Qed.

(** C2. [is_session_valid] answers false when the jar holds no session
    cookie; when it holds one, it answers true exactly when the cookie's
    expiration instant is strictly later than the clock at the check, and
    false when that instant is the clock's or earlier.  The check changes
    nothing (the ghost mark of the call apart). *)
Theorem C2_is_session_valid (w : World) :
  snd (run is_session_valid w) = add_event (Called "is_session_valid") w /\
  (session_cookie w = None -> fst (run is_session_valid w) = Ok false) /\
  (forall cookie : Morsel, session_cookie w = Some cookie ->
     (fst (run is_session_valid w) = Ok true <->
      exists t : datetime,
        strptime (expires cookie) expires_format = Some t /\ clock w < t) /\
     (forall t : datetime,
        strptime (expires cookie) expires_format = Some t ->
        t <= clock w -> fst (run is_session_valid w) = Ok false)).
Proof.
  rewrite run_is_session_valid. simpl. split; [reflexivity|]. split.
  - intros ->. reflexivity.
  - intros cookie ->. split.
    + split.
      * destruct (strptime _ _) as [t|]; [|discriminate].
        intros H. exists t. split; [reflexivity|].
        injection H as H. apply Z.gtb_lt in H. exact H.
      * intros [t [-> H]]. f_equal. apply Z.gtb_lt. exact H.
    + intros t -> H. f_equal.
      destruct (Z.gtb t (clock w)) eqn:E; [|reflexivity].
      apply Z.gtb_lt in E. lia.
Qed.

(** ** The dispatcher and the login exchange *)

Lemma run_await (req : Request) (w : World) :
  run (await req) w =
  if refused req w then (Raise (RuntimeError "Session is closed"), w)
  else receive req (add_event (Sent req) w).
Proof.
  unfold await. simpl. destruct (refused req w); [reflexivity|].
  destruct (receive req (add_event (Sent req) w)) as [[resp|e] w']; reflexivity.
Qed.

Lemma run_await_trace (req : Request) (w : World) :
  trace (snd (run (await req) w)) = trace w ++ sent req w.
Proof.
  rewrite run_await. unfold sent. destruct (refused req w); simpl.
  - symmetry. apply app_nil_r.
  - rewrite receive_trace. reflexivity.
Qed.

(** On the login path the dispatcher is the bare request. *)
Lemma call_login (n : nat) (m : Method) h p d a :
  __call (S n) m "login" h p d a = await (api_request m "login" h p d a).
Proof. reflexivity. Qed.

Lemma run_get_vivintsky_session (n : nat) (username password : string) (w : World) :
  run (__get_vivintsky_session (S (S (S n))) username password) w =
  match run (await (login_request username password)) w with
  | (Ok resp, w') => (login_outcome resp, w')
  | (Raise e, w') => (Raise e, w')
  end.
Proof.
  change (__get_vivintsky_session (S (S (S n))) username password)
    with (bind (await (login_request username password))
            (fun resp =>
               data <- resp_json resp ;;
               if Z.eqb (status resp) 200 then Ret data
               else if Z.eqb (status resp) 401 then
                 msg <- getitem data "msg" ;;
                 Throw (VivintSkyApiAuthenticationError msg)
               else raise_for_status resp ;; Ret JNull)).
  rewrite run_bind.
  destruct (run (await (login_request username password)) w) as [[resp|e] w'];
    [|reflexivity].
  unfold login_outcome, resp_json, raise_for_status.
  destruct (json_body resp) as [data|]; [|reflexivity]. simpl.
  destruct (Z.eqb (status resp) 200); [reflexivity|].
  destruct (Z.eqb (status resp) 401).
  - destruct data as [| | | | |l|items]; try reflexivity.
    simpl. destruct (items_get "msg" items); reflexivity.
  - destruct (Z.leb 400 (status resp)); reflexivity.
Qed.

Lemma run_connect (n : nat) (w : World) :
  run (connect (S n)) w =
  match run (__get_vivintsky_session n (__username (self w)) (__password (self w)))
          (add_event (Called "connect") w) with
  | (Ok authuser_data, w') => (may_return authuser_data, w')
  | (Raise e, w') => (Raise e, w')
  end.
Proof.
  simpl. rewrite run_bind.
  destruct (run _ (add_event (Called "connect") w)) as [[d|e] w']; [|reflexivity].
  unfold may_return. destruct (truthy d); reflexivity.
Qed.

(** The events of one [connect]: its mark, and the login request if the
    session is open. *)
Lemma run_connect_trace (n : nat) (w : World) :
  trace (snd (run (connect (S (S (S (S n))))) w)) =
  trace w ++ Called "connect"
          :: sent (login_request (__username (self w)) (__password (self w))) w.
Proof.
  rewrite run_connect, run_get_vivintsky_session.
  pose proof (run_await_trace
                (login_request (__username (self w)) (__password (self w)))
                (add_event (Called "connect") w)) as T.
  destruct (run (await _) (add_event (Called "connect") w)) as [[resp|e] w'];
    [destruct (login_outcome resp)|];
    simpl in *; rewrite T, <- app_assoc; reflexivity.
Qed.

Lemma run_call (n : nat) (m : Method) (path : string) h p d a (w : World) :
  String.eqb path "login" = false ->
  run (__call (S n) m path h p d a) w =
  match run is_session_valid w with
  | (Ok true, w1) => run (await (api_request m path h p d a)) w1
  | (Ok false, w1) =>
      match run (connect n) w1 with
      | (Ok _, w2) => run (await (api_request m path h p d a)) w2
      | (Raise e, w2) => (Raise e, w2)
      end
  | (Raise e, w1) => (Raise e, w1)
  end.
Proof.
  intros E. cbn [__call]. rewrite E. cbn [negb].
  rewrite !run_bind.
  destruct (run is_session_valid w) as [[[|]|e] w1]; cbn [negb].
  - reflexivity.
  - rewrite run_bind. destruct (run (connect n) w1) as [[x|e] w2]; reflexivity.
  - reflexivity.
Qed.

(** The bound on the depth of calls is no restriction: from 5 on, the
    dispatcher does the same whatever the bound. *)
Lemma run_connect_fuel (n : nat) (w : World) :
  run (connect (S (S (S (S n))))) w = run (connect 4) w.
Proof. rewrite !run_connect, !run_get_vivintsky_session. reflexivity. Qed.

Lemma run_call_fuel (fuel : nat) (m : Method) (path : string) h p d a (w : World) :
  (5 <= fuel)%nat ->
  run (__call fuel m path h p d a) w = run (__call 5 m path h p d a) w.
Proof.
  intros Hfuel. destruct fuel as [|[|[|[|[|n]]]]]; try lia. clear Hfuel.
  destruct (String.eqb path "login") eqn:E.
  - apply String.eqb_eq in E. subst path. reflexivity.
  - rewrite !(run_call _ _ _ _ _ _ _ _ E).
    destruct (run is_session_valid w) as [[[|]|e] w1]; [reflexivity| |reflexivity].
    rewrite run_connect_fuel. reflexivity.
Qed.

Lemma receive_closed (req : Request) (w : World) :
  closed (__client_session (self (snd (receive req w)))) =
  closed (__client_session (self w)).
Proof.
  unfold receive. destruct (server w) as [|[t resp|t e] rest]; simpl; try reflexivity.
  unfold store_cookies. destruct (own_session req); reflexivity.
Qed.

(** A [connect] that returns leaves the session open. *)
Lemma run_connect_ok_open (n : nat) (w wc : World) (authuser_data : json) :
  run (connect (S (S (S (S n))))) w = (Ok authuser_data, wc) ->
  closed (__client_session (self wc)) = false /\
  closed (__client_session (self w)) = false.
Proof.
  rewrite run_connect, run_get_vivintsky_session, run_await.
  set (req := login_request (__username (self w)) (__password (self w))).
  set (w1 := add_event (Called "connect") w).
  unfold refused. change (own_session req) with true. cbn [andb].
  change (closed (__client_session (self w1)))
    with (closed (__client_session (self w))).
  destruct (closed (__client_session (self w))) eqn:C; [discriminate|].
  pose proof (receive_closed req (add_event (Sent req) w1)) as R.
  destruct (receive req (add_event (Sent req) w1)) as [[resp|e] w2];
    [|discriminate].
  destruct (login_outcome resp); [|discriminate].
  intros H. injection H as _ <-. simpl in R. rewrite R. split; [exact C|reflexivity].
Qed.

Lemma calls_app (name : string) (l1 l2 : list event) :
  calls name (l1 ++ l2) = (calls name l1 + calls name l2)%nat.
Proof. unfold calls. rewrite filter_app, length_app. reflexivity. Qed.

Lemma calls_sent (name : string) (req : Request) (w : World) :
  calls name (sent req w) = 0%nat.
Proof. unfold sent. destruct (refused req w); reflexivity. Qed.

(** C1. A dispatch on the login path is the bare request: it adds to the
    trace the request alone, no validity check and no [connect], whatever
    the session.  A dispatch on another path that finds the session
    invalid enters [connect] exactly once, right after the check, and waits
    for it: when [connect] has returned, the request of the dispatch is
    sent, after the login request, and what comes back for it is the result
    of the dispatch; when [connect] has raised, the dispatch raises the
    same and its request is not sent. *)
Theorem C1_dispatch_reauthenticates (fuel : nat) (m : Method) (path : string)
    (h : option (list (string * string))) (p : option (list (string * param)))
    (d : option string) (a : option bool) (w : World) :
  (5 <= fuel)%nat ->
  let req := api_request m path h p d a in
  let login := login_request (__username (self w)) (__password (self w)) in
  let w' := snd (run (__call fuel m path h p d a) w) in
  (path = "login" ->
     run (__call fuel m path h p d a) w = run (await req) w /\
     trace w' = trace w ++ sent req w) /\
  (path <> "login" -> fst (run is_session_valid w) = Ok false ->
     exists T : list event,
       trace w' =
         trace w ++ Called "is_session_valid" :: Called "connect" :: sent login w ++ T /\
       (T = [] \/
        T = [Sent req] /\ sent login w = [Sent login] /\
        exists authuser_data : json,
          fst (run (connect (fuel - 1)) (add_event (Called "is_session_valid") w))
          = Ok authuser_data) /\
       calls "connect" (trace w') = (calls "connect" (trace w) + 1)%nat /\
       (forall (authuser_data : json) (wc : World),
          run (connect (fuel - 1)) (add_event (Called "is_session_valid") w)
          = (Ok authuser_data, wc) ->
          T = [Sent req] /\
          run (__call fuel m path h p d a) w = receive req (add_event (Sent req) wc)) /\
       (forall (e : exn) (wc : World),
          run (connect (fuel - 1)) (add_event (Called "is_session_valid") w)
          = (Raise e, wc) ->
          T = [] /\ run (__call fuel m path h p d a) w = (Raise e, wc))).
Proof.
  intros Hfuel req login w'.
  destruct fuel as [|[|[|[|[|n]]]]]; try lia. clear Hfuel.
  split.
  - intros ->. subst w' req. rewrite call_login. split; [reflexivity|].
    apply run_await_trace.
  - intros Hpath Hinvalid.
    assert (E : String.eqb path "login" = false) by (apply String.eqb_neq; exact Hpath).
    subst w'. rewrite (run_call _ _ _ _ _ _ _ _ E).
    rewrite run_is_session_valid in Hinvalid |- *. simpl in Hinvalid.
    rewrite Hinvalid.
    cbn [Nat.sub].
    pose proof (run_connect_trace n (add_event (Called "is_session_valid") w)) as Tc.
    pose proof (run_connect_ok_open n (add_event (Called "is_session_valid") w)) as Open.
    cbn [self add_event trace] in Tc.
    change (sent ?r (add_event ?ev w)) with (sent r w) in Tc.
    fold login in Tc.
    destruct (run (connect (S (S (S (S n))))) (add_event (Called "is_session_valid") w))
      as [[authuser_data|e] wc].
    + destruct (Open wc authuser_data eq_refl) as [Oc O1].
      simpl in Tc, O1.
      assert (S1 : sent req wc = [Sent req]).
      { unfold sent, refused. rewrite Oc, andb_false_r. reflexivity. }
      assert (R : run (await req) wc = receive req (add_event (Sent req) wc)).
      { rewrite run_await. unfold refused. rewrite Oc, andb_false_r. reflexivity. }
      fold req. rewrite run_await_trace, Tc, S1.
      exists [Sent req]. split; [|split; [|split; [|split]]].
      * rewrite <- !app_assoc. reflexivity.
      * right. split; [reflexivity|]. split.
        -- unfold sent, refused. rewrite O1, andb_false_r. reflexivity.
        -- exists authuser_data. reflexivity.
      * change (Called "connect" :: sent login w)
          with ([Called "connect"] ++ sent login w).
        rewrite !calls_app, calls_sent.
        change (calls "connect" [Called "is_session_valid"]) with 0%nat.
        change (calls "connect" [Called "connect"]) with 1%nat.
        change (calls "connect" [Sent req]) with 0%nat. lia.
      * intros authuser_data' wc' H. injection H as _ <-.
        split; [reflexivity|exact R].
      * intros e wc' H. discriminate H.
    + simpl in Tc |- *. rewrite Tc.
      exists []. split; [|split; [|split; [|split]]].
      * rewrite app_nil_r, <- !app_assoc. reflexivity.
      * left. reflexivity.
      * change (Called "connect" :: sent login w)
          with ([Called "connect"] ++ sent login w).
        rewrite !calls_app, calls_sent.
        change (calls "connect" [Called "is_session_valid"]) with 0%nat.
        change (calls "connect" [Called "connect"]) with 1%nat. lia.
      * intros authuser_data wc' H. discriminate H.
      * intros e' wc' H. injection H as <- <-. split; reflexivity.
Qed.

(** The login exchange against an open session and a server that answers. *)
Lemma run_login_answered (n : nat) (username password : string) (w : World)
    (t : datetime) (resp : Response) (rest : list Reply) :
  closed (__client_session (self w)) = false ->
  server w = Arrives t resp :: rest ->
  fst (run (__get_vivintsky_session (S (S (S n))) username password) w)
  = login_outcome resp.
Proof.
  intros C Sv. rewrite run_get_vivintsky_session, run_await.
  unfold refused. rewrite C, andb_false_r.
  unfold receive. cbn [server add_event]. rewrite Sv. reflexivity.
Qed.

(** C3, as the code has it.  When the server answers the login request
    with a body that is JSON: on status 200 the parsed payload is returned;
    on 401 with an object that carries [msg], [AuthenticationError] is
    raised with that message; on any other status from 400 on, the status
    error of [raise_for_status] comes through as it is; on any other
    status below 400 the method returns [None] and raises nothing. *)
Theorem C3_login_outcomes (fuel : nat) (username password : string) (w : World)
    (t : datetime) (resp : Response) (rest : list Reply) (payload : json) :
  (3 <= fuel)%nat ->
  closed (__client_session (self w)) = false ->
  server w = Arrives t resp :: rest ->
  json_body resp = Some payload ->
  let r := fst (run (__get_vivintsky_session fuel username password) w) in
  (status resp = 200 -> r = Ok payload) /\
  (status resp = 401 ->
     forall (items : list (string * json)) (msg : json),
       payload = JDict items -> items_get "msg" items = Some msg ->
       r = Raise (VivintSkyApiAuthenticationError msg)) /\
  (status resp <> 200 -> status resp <> 401 -> 400 <= status resp ->
     r = Raise (ClientResponseError (status resp))) /\
  (status resp <> 200 -> status resp <> 401 -> status resp < 400 ->
     r = Ok JNull).
Proof.
  intros Hfuel C Sv J r.
  destruct fuel as [|[|[|n]]]; try lia. clear Hfuel.
  subst r. rewrite (run_login_answered n username password w t resp rest C Sv).
  unfold login_outcome. rewrite J.
  split; [|split; [|split]].
  - intros ->. reflexivity.
  - intros -> items msg -> ->. reflexivity.
  - intros H200 H401 H400.
    apply Z.eqb_neq in H200, H401. rewrite H200, H401.
    apply Z.leb_le in H400. rewrite H400. reflexivity.
  - intros H200 H401 H400.
    apply Z.eqb_neq in H200, H401. rewrite H200, H401.
    apply Z.leb_gt in H400. rewrite H400. reflexivity.
Qed.

(** C9. When the login exchange returns, [connect] returns its payload if
    the payload is true, and raises [AuthenticationError] with the text
    "Unable to login to Vivint." if it is false: [None], an empty object,
    an empty list, an empty string, zero or [False].  So what [connect]
    returns is never empty. *)
Theorem C9_connect_rejects_empty_payload (fuel : nat) (w : World) :
  (4 <= fuel)%nat ->
  (forall (authuser_data : json) (w' : World),
     run (__get_vivintsky_session (fuel - 1)
            (__username (self w)) (__password (self w)))
         (add_event (Called "connect") w) = (Ok authuser_data, w') ->
     (truthy authuser_data = false ->
      run (connect fuel) w =
      (Raise (VivintSkyApiAuthenticationError (JStr "Unable to login to Vivint.")), w')) /\
     (truthy authuser_data = true ->
      run (connect fuel) w = (Ok authuser_data, w'))) /\
  (forall (authuser_data : json) (w' : World),
     run (connect fuel) w = (Ok authuser_data, w') -> truthy authuser_data = true).
Proof.
  intros Hfuel. destruct fuel as [|n]; [lia|]. clear Hfuel.
  cbn [Nat.sub]. rewrite Nat.sub_0_r. split.
  - intros authuser_data w' H. rewrite run_connect, H. unfold may_return.
    split; intros ->; reflexivity.
  - intros authuser_data w'. rewrite run_connect.
    destruct (run _ (add_event (Called "connect") w)) as [[d|e] w1]; [|discriminate].
    unfold may_return. destruct (truthy d) eqn:T; [|discriminate].
    intros H. injection H as <- _. exact T.
Qed.

(** ** Disconnecting *)

Lemma run_disconnect (w : World) :
  run disconnect w =
  if __has_custom_client_session (self w) then (Ok tt, w)
  else
    (Ok tt,
     add_event SessionClosed
       (set_self (set_client_session
                    {| cookies := cookies (__client_session (self w));
                       closed := true |} (self w)) w)).
Proof.
  unfold disconnect. simpl.
  destruct (__has_custom_client_session (self w)); reflexivity.
Qed.

(** C10. [disconnect] closes the client session exactly when the client
    made that session itself, that is when [__init__] was given none; a
    session given by the caller is left as it is.  Either way the
    credentials, the device cache, the flag and the cookies stay as they
    were, and nothing is raised. *)
Theorem C10_disconnect_closes_own_session_only (w : World) :
  let w' := snd (run disconnect w) in
  fst (run disconnect w) = Ok tt /\
  (__has_custom_client_session (self w) = false ->
     closed (__client_session (self w')) = true /\
     trace w' = trace w ++ [SessionClosed]) /\
  (__has_custom_client_session (self w) = true -> w' = w) /\
  (forall (username password : string) (client_session : option ClientSession),
     __has_custom_client_session (__init__ username password client_session) = false
     <-> client_session = None) /\
  __username (self w') = __username (self w) /\
  __password (self w') = __password (self w) /\
  __zwave_device_info (self w') = __zwave_device_info (self w) /\
  __has_custom_client_session (self w') = __has_custom_client_session (self w) /\
  cookies (__client_session (self w')) = cookies (__client_session (self w)) /\
  clock w' = clock w /\ server w' = server w.
Proof.
  intros w'. subst w'. rewrite run_disconnect.
  destruct (__has_custom_client_session (self w)) eqn:F; simpl.
  - repeat split; try reflexivity; try discriminate; try assumption.
    + destruct client_session; [discriminate|reflexivity].
    + intros ->. reflexivity.
  - repeat split; try reflexivity; try discriminate; try assumption.
    + destruct client_session; [discriminate|reflexivity].
    + intros ->. reflexivity.
Qed.

(** ** The device cache *)

Lemma run_get_zwave_details_hit (m p t : Z) (w : World) (info : list string) :
  __zwave_device_info (self w) !! zwave_key m p t = Some info ->
  run (get_zwave_details m p t) w = (Ok (Some info), w).
Proof.
  intros H. unfold get_zwave_details. fold (zwave_key m p t).
  cbn [bind get_self run]. rewrite H. reflexivity.
Qed.

Lemma run_get_zwave_details_miss (m p t : Z) (w : World) :
  __zwave_device_info (self w) !! zwave_key m p t = None ->
  run (get_zwave_details m p t) w =
  match receive (zwave_request (zwave_key m p t))
          (add_event (Sent (zwave_request (zwave_key m p t))) w) with
  | (Ok resp, w1) => (zwave_outcome resp, zwave_store (zwave_key m p t) (zwave_outcome resp) w1)
  | (Raise e, w1) => (Raise e, w1)
  end.
Proof.
  intros H. unfold get_zwave_details. fold (zwave_key m p t).
  fold (zwave_request (zwave_key m p t)).
  cbn [bind get_self run]. rewrite H.
  cbn [bind await run]. unfold refused. cbn [own_session zwave_request andb].
  fold (zwave_request (zwave_key m p t)).
  destruct (receive _ _) as [[resp|e] w1]; [|reflexivity].
  unfold zwave_outcome, zwave_store, raise_for_status.
  destruct (Z.eqb (status resp) 200).
  - destruct (re_search_title (text resp)); reflexivity.
  - destruct (Z.leb 400 (status resp)); reflexivity.
Qed.

(** A reply to a fresh session's request leaves the client as it was. *)
Lemma receive_fresh (req : Request) (w : World) :
  own_session req = false -> self (snd (receive req w)) = self w.
Proof.
  intros H. unfold receive. destruct (server w) as [|[t resp|t e] rest]; try reflexivity.
  simpl. unfold store_cookies. rewrite H. reflexivity.
Qed.

Lemma run_get_zwave_details_answered (m p t : Z) (w : World)
    (at_time : datetime) (resp : Response) (rest : list Reply) :
  __zwave_device_info (self w) !! zwave_key m p t = None ->
  server w = Arrives at_time resp :: rest ->
  run (get_zwave_details m p t) w =
  (zwave_outcome resp,
   zwave_store (zwave_key m p t) (zwave_outcome resp)
     {| self := self w; clock := at_time; server := rest;
        trace := trace w ++ [Sent (zwave_request (zwave_key m p t))] |}).
Proof.
  intros H Sv. rewrite (run_get_zwave_details_miss m p t w H).
  unfold receive. cbn [server add_event]. rewrite Sv. reflexivity.
Qed.



(** ** Endpoint operations that read [self.id] *)

(** The class has no attribute [id]. *)
Lemma run_self_field_id (w : World) :
  run (self_field "id") w = (Raise (AttributeError "VivintSkyApi" "id"), w).
Proof. reflexivity. Qed.

(** [set_alarm_state] after the dispatch: on 200 it is done; otherwise it
    logs, and then fails on [self.id] while it builds the message of the
    error it means to raise. *)
Lemma run_set_alarm_state (fuel : nat) (panel_id partition_id state : Z) (w : World) :
  run (set_alarm_state fuel panel_id partition_id state) w =
  match run (__put fuel
               (pretty panel_id +:+ "/" +:+ pretty partition_id +:+ "/armedstates")
               (Some [("Content-Type", "application/json;charset=UTF-8")])
               (Some (json_dumps (JDict [("system", JInt panel_id);
                                         ("partitionId", JInt partition_id);
                                         ("armState", JInt state);
                                         ("forceArm", JBool false)])))) w with
  | (Ok resp, w1) =>
      if Z.eqb (status resp) 200 then (Ok tt, w1)
      else
        match ArmedState_name state with
        | Ok name =>
            (Raise (AttributeError "VivintSkyApi" "id"),
             add_event
               (Logged "ERROR"
                  ("failed to set state " +:+ name +:+ ". Code: "
                   +:+ pretty (status resp) +:+ ", body: " +:+ text resp +:+ ","
                   +:+ "request url: " +:+ request_info resp)) w1)
        | Raise e => (Raise e, w1)
        end
  | (Raise e, w1) => (Raise e, w1)
  end.
Proof.
  unfold set_alarm_state. rewrite run_bind.
  destruct (run (__put _ _ _ _) w) as [[resp|e] w1]; [|reflexivity].
  destruct (Z.eqb (status resp) 200); [reflexivity|]. cbn [negb].
  destruct (ArmedState_name state) as [name|e]; reflexivity.
Qed.

(** No answer of the server makes [set_alarm_state] raise its
    [VivintSkyApiError]: what it raises after a response is the error of
    [ArmedState.name] or the [AttributeError] of [self.id]. *)
Lemma set_alarm_state_never_raises_ApiError (fuel : nat)
    (panel_id partition_id state : Z) (w w1 : World) (resp : Response) :
  run (__put fuel
         (pretty panel_id +:+ "/" +:+ pretty partition_id +:+ "/armedstates")
         (Some [("Content-Type", "application/json;charset=UTF-8")])
         (Some (json_dumps (JDict [("system", JInt panel_id);
                                   ("partitionId", JInt partition_id);
                                   ("armState", JInt state);
                                   ("forceArm", JBool false)])))) w
  = (Ok resp, w1) ->
  status resp <> 200 ->
  forall name : string, ArmedState_name state = Ok name ->
  fst (run (set_alarm_state fuel panel_id partition_id state) w)
  = Raise (AttributeError "VivintSkyApi" "id").
Proof.
  intros R St name N. rewrite run_set_alarm_state, R.
  apply Z.eqb_neq in St. rewrite St, N. reflexivity.
Qed.

Lemma run_request_camera_thumbnail (fuel : nat)
    (panel_id partition_id device_id : Z) (w : World) :
  run (request_camera_thumbnail fuel panel_id partition_id device_id) w =
  match run (__get fuel
               (pretty panel_id +:+ "/" +:+ pretty partition_id +:+ "/"
                +:+ pretty device_id +:+ "/request-camera-thumbnail")
               None None None) w with
  | (Ok resp, w1) =>
      if (Z.ltb (status resp) 200 || Z.gtb (status resp) 299)%bool
      then (Raise (AttributeError "VivintSkyApi" "id"), w1)
      else (Ok tt, w1)
  | (Raise e, w1) => (Raise e, w1)
  end.
Proof.
  unfold request_camera_thumbnail. rewrite run_bind.
  destruct (run (__get _ _ _ _ _) w) as [[resp|e] w1]; [|reflexivity].
  destruct (Z.ltb (status resp) 200 || Z.gtb (status resp) 299)%bool; reflexivity.
Qed.

Lemma run_get_camera_thumbnail_url (fuel : nat)
    (panel_id partition_id device_id : Z) (thumbnail_timestamp : datetime)
    (w : World) :
  run (get_camera_thumbnail_url fuel panel_id partition_id device_id
         thumbnail_timestamp) w =
  match run (__get fuel
               (pretty panel_id +:+ "/" +:+ pretty partition_id +:+ "/"
                +:+ pretty device_id +:+ "/camera-thumbnail")
               None (Some [("time", PTime thumbnail_timestamp)]) (Some false)) w with
  | (Ok resp, w1) =>
      if Z.eqb (status resp) 302
      then (Ok (headers_get "Location" (resp_headers resp)), w1)
      else (Raise (AttributeError "VivintSkyApi" "id"), w1)
  | (Raise e, w1) => (Raise e, w1)
  end.
Proof.
  unfold get_camera_thumbnail_url. rewrite run_bind.
  destruct (run (__get _ _ _ _ _) w) as [[resp|e] w1]; [|reflexivity].
  destruct (Z.eqb (status resp) 302); reflexivity.
Qed.

(** ** Two dispatches in one event loop *)

Lemma connects_at_most_mono {A : Type} (p : Prog A) (n n' : nat) :
  (n <= n')%nat -> connects_at_most p n -> connects_at_most p n'.
Proof.
  revert n n'.
  induction p as [a|e|k IH|c k IH|k IH|ev k IH|req k IH]; intros n n' L; simpl;
    try (intros; exact I).
  - intros H c. apply (IH c n n' L). apply H.
  - apply IH. exact L.
  - intros H t. apply (IH t n n' L). apply H.
  - destruct (is_call "connect" ev).
    + destruct n as [|m]; [intros []|]. destruct n' as [|m']; [lia|].
      apply IH. lia.
    + apply IH. exact L.
  - intros H r. apply (IH r n n' L). apply H.
Qed.

Lemma connects_at_most_bind {A B : Type} (m : Prog A) (f : A -> Prog B) (a b : nat) :
  connects_at_most m a -> (forall x, connects_at_most (f x) b) ->
  connects_at_most (bind m f) (a + b).
Proof.
  revert a.
  induction m as [x|e|k IH|c k IH|k IH|ev k IH|req k IH]; intros a Hm Hf; simpl in *.
  - apply (connects_at_most_mono (f x) b (a + b)); [lia|apply Hf].
  - exact I.
  - intros c. apply IH; [apply Hm|exact Hf].
  - apply IH; [exact Hm|exact Hf].
  - intros t. apply IH; [apply Hm|exact Hf].
  - destruct (is_call "connect" ev).
    + destruct a as [|a']; [destruct Hm|]. simpl. apply IH; [exact Hm|exact Hf].
    + apply IH; [exact Hm|exact Hf].
  - intros r. apply IH; [apply Hm|exact Hf].
Qed.

Lemma calls_add_event (name : string) (ev : event) (w : World) :
  calls name (trace (add_event ev w)) =
  (calls name (trace w) + if is_call name ev then 1 else 0)%nat.
Proof.
  cbn [trace add_event]. rewrite calls_app. f_equal.
  unfold calls. rewrite filter_cons, filter_nil.
  destruct (decide (is_call name ev = true)) as [E|E].
  - rewrite E. reflexivity.
  - destruct (is_call name ev); [contradiction E; reflexivity|reflexivity].
Qed.

(** A task that runs up to its next suspension uses up of its bound what
    it adds to the count. *)
Lemma advance_within {A : Type} (p : Prog A) (n : nat) (w : World) :
  connects_at_most p n ->
  exists j : nat,
    (j <= n)%nat /\
    calls "connect" (trace (snd (advance p w))) = (calls "connect" (trace w) + j)%nat /\
    task_connects_at_most (fst (advance p w)) (n - j).
Proof.
  revert n w.
  induction p as [a|e|k IH|c k IH|k IH|ev k IH|req k IH]; intros n w H; simpl in *.
  - exists 0%nat. split; [lia|]. split; [lia|exact I].
  - exists 0%nat. split; [lia|]. split; [lia|exact I].
  - apply IH. apply H.
  - apply (IH n (set_self c w)). exact H.
  - apply IH. apply H.
  - pose proof (calls_add_event "connect" ev w) as C.
    destruct (is_call "connect" ev).
    + destruct n as [|m]; [destruct H|].
      destruct (IH m (add_event ev w) H) as (j & L & E & T).
      exists (S j). split; [lia|]. split; [lia|]. exact T.
    + destruct (IH n (add_event ev w) H) as (j & L & E & T).
      exists j. split; [lia|]. split; [lia|]. exact T.
  - destruct (refused req w); simpl.
    + exists 0%nat. split; [lia|]. split; [lia|exact I].
    + exists 0%nat. split; [lia|]. split.
      * rewrite calls_app. simpl. unfold calls at 2. simpl. lia.
      * rewrite Nat.sub_0_r. exact H.
Qed.

Lemma resume_within {A : Type} (t : task A) (n : nat) (w : World) :
  task_connects_at_most t n ->
  exists j : nat,
    (j <= n)%nat /\
    calls "connect" (trace (snd (resume t w))) = (calls "connect" (trace w) + j)%nat /\
    task_connects_at_most (fst (resume t w)) (n - j).
Proof.
  destruct t as [p|req k|r]; simpl; intros H.
  - apply advance_within. exact H.
  - pose proof (receive_trace req w) as T.
    destruct (receive req w) as [[resp|e] w']; simpl in T.
    + destruct (advance_within (k resp) n w' (H resp)) as (j & L & E & B).
      exists j. rewrite <- T. split; [exact L|]. split; [exact E|exact B].
    + exists 0%nat. simpl. rewrite T. split; [lia|]. split; [lia|exact I].
  - exists 0%nat. simpl. split; [lia|]. split; [lia|exact I].
Qed.

Lemma turn_within {A : Type} (bound i : nat) (st : list (task A) * World) :
  pool_within bound st ->
  pool_within bound (turn i st) /\
  (calls "connect" (trace (snd st)) <= calls "connect" (trace (snd (turn i st))))%nat.
Proof.
  intros (t1 & t2 & n1 & n2 & Ets & B1 & B2 & L).
  destruct st as [ts w]. simpl in Ets, L. subst ts. unfold turn. cbn [fst snd].
  destruct i as [|[|i]]; cbn [lookup list_lookup].
  - destruct (resume_within t1 n1 w B1) as (j & Lj & E & B).
    destruct (resume t1 w) as [t' w']. cbn [fst snd] in *.
    split; [|lia].
    exists t', t2, (n1 - j)%nat, n2. cbn [fst snd].
    split; [reflexivity|]. split; [exact B|]. split; [exact B2|]. lia.
  - destruct (resume_within t2 n2 w B2) as (j & Lj & E & B).
    destruct (resume t2 w) as [t' w']. cbn [fst snd] in *.
    split; [|lia].
    exists t1, t', n1, (n2 - j)%nat. cbn [fst snd].
    split; [reflexivity|]. split; [exact B1|]. split; [exact B|]. lia.
  - simpl. split; [|lia].
    exists t1, t2, n1, n2. cbn [fst snd].
    split; [reflexivity|]. split; [exact B1|]. split; [exact B2|]. exact L.
Qed.

Lemma run_schedule_within {A : Type} (bound : nat) (sched : list nat)
    (st : list (task A) * World) :
  pool_within bound st ->
  pool_within bound (run_schedule sched st) /\
  (calls "connect" (trace (snd st))
   <= calls "connect" (trace (snd (run_schedule sched st))))%nat.
Proof.
  revert st. induction sched as [|i sched IH]; intros st H; simpl.
  - split; [exact H|lia].
  - destruct (turn_within bound i st H) as [H1 L1].
    destruct (IH (turn i st) H1) as [H2 L2]. split; [exact H2|lia].
Qed.

Lemma is_session_valid_no_connect : connects_at_most is_session_valid 0.
Proof.
  unfold is_session_valid. simpl. intros c.
  destruct (jar_get _ _ _) as [cookie|]; [|exact I].
  destruct (strptime _ _); simpl; [intros; exact I|exact I].
Qed.

Lemma call_login_no_connect (n : nat) (m : Method) h p d a :
  connects_at_most (__call n m "login" h p d a) 0.
Proof. destruct n; simpl; intros; exact I. Qed.

Lemma get_vivintsky_session_no_connect (n : nat) (username password : string) :
  connects_at_most (__get_vivintsky_session n username password) 0.
Proof.
  destruct n as [|[|n]]; try exact I.
  cbn [__get_vivintsky_session __post].
  apply (connects_at_most_bind _ _ 0 0); [apply call_login_no_connect|].
  intros resp. unfold resp_json, raise_for_status, getitem.
  destruct (json_body resp) as [data|]; [|exact I]. simpl.
  destruct (Z.eqb (status resp) 200); [exact I|].
  destruct (Z.eqb (status resp) 401).
  - destruct data as [| | | | |l|items]; try exact I.
    destruct (items_get "msg" items); exact I.
  - destruct (Z.leb 400 (status resp)); exact I.
Qed.

Lemma connect_once (n : nat) : connects_at_most (connect n) 1.
Proof.
  destruct n as [|n]; [exact I|]. cbn [connect]. simpl. intros c.
  apply (connects_at_most_bind _ _ 0 0); [apply get_vivintsky_session_no_connect|].
  intros authuser_data. destruct (truthy authuser_data); exact I.
Qed.

(** A dispatch enters [connect] at most once. *)
Lemma call_connects_at_most_once (fuel : nat) (m : Method) (path : string) h p d a :
  connects_at_most (__call fuel m path h p d a) 1.
Proof.
  destruct fuel as [|n]; [exact I|]. cbn [__call].
  apply (connects_at_most_bind _ _ 1 0); [|intros; simpl; intros; exact I].
  destruct (negb (String.eqb path "login")); [|exact I].
  apply (connects_at_most_bind _ _ 0 1); [apply is_session_valid_no_connect|].
  intros valid. destruct (negb valid); [|exact I].
  apply (connects_at_most_bind _ _ 1 0); [apply connect_once|intros; exact I].
Qed.

(** Running up to the next suspension, through a [bind]. *)
Lemma advance_bind {A B : Type} (m : Prog A) (f : A -> Prog B) (w : World) :
  advance (bind m f) w =
  match advance m w with
  | (Finished (Ok a), w') => advance (f a) w'
  | (Finished (Raise e), w') => (Finished (Raise e), w')
  | (Blocked req k, w') => (Blocked req (fun r => bind (k r) f), w')
  | (Ready p, w') => (Ready (bind p f), w')
  end.
Proof.
  revert w. induction m as [a|e|k IH|c k IH|k IH|ev k IH|req k IH]; intros w; simpl;
    try reflexivity; try apply IH.
  destruct (refused req w); reflexivity.
Qed.

Lemma advance_is_session_valid (w : World) :
  advance is_session_valid w =
  (Finished (fst (run is_session_valid w)), snd (run is_session_valid w)).
Proof.
  unfold is_session_valid. simpl.
  destruct (jar_get _ _ _) as [cookie|]; [|reflexivity].
  destruct (strptime _ _); reflexivity.
Qed.

(** [connect] runs up to its login request and suspends there, unless the
    session is closed. *)
Lemma advance_connect (n : nat) (w : World) :
  let login := login_request (__username (self w)) (__password (self w)) in
  exists k : Response -> Prog json,
    advance (connect (S (S (S (S n))))) w =
    if refused login w
    then (Finished (Raise (RuntimeError "Session is closed")),
          add_event (Called "connect") w)
    else (Blocked login k, add_event (Sent login) (add_event (Called "connect") w)).
Proof.
  intros login. cbn [connect]. cbn [emit bind advance get_self].
  rewrite advance_bind. cbn [__get_vivintsky_session __post].
  rewrite advance_bind. cbn [self add_event].
  change (__call (S n) POST "login" None None ?d None)
    with (await (api_request POST "login" None None d None)).
  fold (login_request (__username (self w)) (__password (self w))). fold login.
  cbn [await advance].
  change (refused login (add_event (Called "connect") w)) with (refused login w).
  destruct (refused login w);
    [exists (fun _ => Throw RecursionError)|eexists]; cbv beta iota; reflexivity.
Qed.

(** A dispatch that finds the session invalid runs, in one go, through the
    check and into [connect], up to the login request. *)
Lemma advance_call_invalid (n : nat) (m : Method) (path : string) h p d a (w : World) :
  String.eqb path "login" = false ->
  fst (run is_session_valid w) = Ok false ->
  let login := login_request (__username (self w)) (__password (self w)) in
  let w' := snd (advance (__call (S (S (S (S (S n))))) m path h p d a) w) in
  trace w' = trace w ++ Called "is_session_valid" :: Called "connect" :: sent login w /\
  self w' = self w /\ clock w' = clock w.
Proof.
  intros E Hinv login w'. subst w'.
  cbn [__call]. rewrite E. cbn [negb].
  rewrite !advance_bind, advance_is_session_valid, Hinv.
  rewrite run_is_session_valid. cbn [snd negb].
  rewrite advance_bind.
  destruct (advance_connect n (add_event (Called "is_session_valid") w)) as [k Hk].
  cbn [self add_event] in Hk. fold login in Hk.
  change (refused login (add_event (Called "is_session_valid") w))
    with (refused login w) in Hk.
  rewrite Hk. unfold sent.
  destruct (refused login w); cbn [snd trace add_event self clock].
  - rewrite <- app_assoc. repeat split.
  - rewrite <- !app_assoc. repeat split.
Qed.

Lemma is_session_valid_same (w w' : World) :
  self w' = self w -> clock w' = clock w ->
  fst (run is_session_valid w') = fst (run is_session_valid w).
Proof.
  intros S C. rewrite !run_is_session_valid. unfold session_cookie.
  rewrite S, C. reflexivity.
Qed.

(** What the first turn of a dispatch that finds the session invalid
    leaves: one more entry of [connect], and a task that will not enter it
    again. *)
Lemma first_turn_invalid (fuel : nat) (m : Method) (path : string) h p d a (w : World) :
  (5 <= fuel)%nat -> path <> "login" ->
  fst (run is_session_valid w) = Ok false ->
  let r := advance (__call fuel m path h p d a) w in
  task_connects_at_most (fst r) 0 /\
  calls "connect" (trace (snd r)) = (calls "connect" (trace w) + 1)%nat /\
  self (snd r) = self w /\ clock (snd r) = clock w.
Proof.
  intros Hfuel Hpath Hinv r. subst r.
  destruct fuel as [|[|[|[|[|n]]]]]; try lia. clear Hfuel.
  assert (E : String.eqb path "login" = false) by (apply String.eqb_neq; exact Hpath).
  destruct (advance_call_invalid n m path h p d a w E Hinv) as (T & Sf & Ck).
  assert (C : calls "connect"
                (trace (snd (advance (__call (S (S (S (S (S n))))) m path h p d a) w)))
              = (calls "connect" (trace w) + 1)%nat).
  { rewrite T.
    change (Called "is_session_valid" :: Called "connect" :: ?l)
      with ([Called "is_session_valid"; Called "connect"] ++ l).
    rewrite !calls_app, calls_sent.
    change (calls "connect" [Called "is_session_valid"; Called "connect"]) with 1%nat.
    lia. }
  destruct (advance_within (__call (S (S (S (S (S n))))) m path h p d a) 1 w
              (call_connects_at_most_once _ m path h p d a)) as (j & Lj & Ej & Bj).
  assert (j = 1%nat) by lia. subst j.
  split; [exact Bj|]. split; [exact C|]. split; [exact Sf|exact Ck].
Qed.

(** C8, as the code has it.  The dispatcher has no guard that would make
    concurrent dispatches share one login.  Each dispatch enters [connect]
    at most once, so two dispatches of one client, scheduled in any order,
    enter it at most twice; and when the session is invalid and both
    dispatches start before the reply to either login is delivered, they
    enter it exactly twice, whatever the schedule from then on. *)
Theorem C8_one_connect_per_dispatch (fuel1 fuel2 : nat) (m1 m2 : Method)
    (path1 path2 : string)
    (h1 h2 : option (list (string * string))) (p1 p2 : option (list (string * param)))
    (d1 d2 : option string) (a1 a2 : option bool) (sched : list nat) (w : World) :
  let pool := [Ready (__call fuel1 m1 path1 h1 p1 d1 a1);
               Ready (__call fuel2 m2 path2 h2 p2 d2 a2)] in
  (calls "connect" (trace (snd (run_schedule sched (pool, w))))
   <= calls "connect" (trace w) + 2)%nat /\
  ((5 <= fuel1)%nat -> (5 <= fuel2)%nat ->
   path1 <> "login" -> path2 <> "login" ->
   fst (run is_session_valid w) = Ok false ->
   calls "connect" (trace (snd (run_schedule (0%nat :: 1%nat :: sched) (pool, w))))
   = (calls "connect" (trace w) + 2)%nat).
Proof.
  intros pool. split.
  - destruct (run_schedule_within (calls "connect" (trace w) + 2) sched (pool, w))
      as [(t1 & t2 & n1 & n2 & _ & _ & _ & L) _]; [|lia].
    exists (Ready (__call fuel1 m1 path1 h1 p1 d1 a1)),
           (Ready (__call fuel2 m2 path2 h2 p2 d2 a2)), 1%nat, 1%nat.
    split; [reflexivity|].
    split; [apply call_connects_at_most_once|].
    split; [apply call_connects_at_most_once|]. cbn [snd]. lia.
  - intros F1 F2 P1 P2 Hinv.
    destruct (first_turn_invalid fuel1 m1 path1 h1 p1 d1 a1 w F1 P1 Hinv)
      as (B1 & C1 & S1 & K1).
    change (run_schedule (0%nat :: 1%nat :: sched) (pool, w))
      with (run_schedule sched (turn 1 (turn 0 (pool, w)))).
    unfold pool, turn at 2. cbn [fst snd lookup list_lookup].
    destruct (advance (__call fuel1 m1 path1 h1 p1 d1 a1) w) as [t1 w1] eqn:A1.
    cbn [resume]. rewrite A1. cbn [fst snd] in B1, C1, S1, K1.
    cbn [insert list_insert]. unfold turn. cbn [fst snd lookup list_lookup resume].
    assert (Hinv1 : fst (run is_session_valid w1) = Ok false).
    { rewrite (is_session_valid_same w w1 S1 K1). exact Hinv. }
    destruct (first_turn_invalid fuel2 m2 path2 h2 p2 d2 a2 w1 F2 P2 Hinv1)
      as (B2 & C2 & _ & _).
    destruct (advance (__call fuel2 m2 path2 h2 p2 d2 a2) w1) as [t2 w2] eqn:A2.
    cbn [fst snd insert list_insert] in *.
    destruct (run_schedule_within (calls "connect" (trace w) + 2) sched ([t1; t2], w2))
      as [(t1' & t2' & n1 & n2 & _ & _ & _ & L) M].
    + exists t1, t2, 0%nat, 0%nat. cbn [fst snd].
      split; [reflexivity|]. split; [exact B1|]. split; [exact B2|]. lia.
    + cbn [snd] in M. lia.
Qed.

(** ** The two semantics agree on one coroutine *)

(** Alone in the loop, a coroutine ends where [run] says. *)
Lemma run_is_scheduling_alone {A : Type} (p : Prog A) (w : World) :
  exists n : nat,
    turns n (advance p w) = (Finished (fst (run p w)), snd (run p w)).
Proof.
  revert w. induction p as [a|e|k IH|c k IH|k IH|ev k IH|req k IH]; intros w; simpl.
  - exists 0%nat. reflexivity.
  - exists 0%nat. reflexivity.
  - apply IH.
  - apply IH.
  - apply IH.
  - apply IH.
  - destruct (refused req w).
    + exists 0%nat. reflexivity.
    + destruct (receive req (add_event (Sent req) w)) as [[resp|e] w'] eqn:R.
      * destruct (IH resp w') as [n H]. exists (S n). simpl. rewrite R. exact H.
      * exists 1%nat. simpl. rewrite R. reflexivity.
Qed.

End Properties.

(** * Further properties *)

Section MoreProperties.

Context {lib : Library} {cst : Constants}.

(** ** The dispatcher *)

Lemma run_call_valid (n : nat) (m : Method) (path : string) h p d a (w : World) :
  String.eqb path "login" = false ->
  fst (run is_session_valid w) = Ok true ->
  run (__call (S n) m path h p d a) w =
  run (await (api_request m path h p d a)) (add_event (Called "is_session_valid") w).
Proof.
  intros E V. rewrite (run_call _ _ _ _ _ _ _ _ E).
  rewrite run_is_session_valid in V |- *. cbn [fst] in V. rewrite V. reflexivity.
Qed.

(** X1. With a valid session a dispatch on a path other than the login
    path does not log in: after the check it is the bare request. *)
Theorem dispatch_with_valid_session (fuel : nat) (m : Method) (path : string)
    (h : option (list (string * string))) (p : option (list (string * param)))
    (d : option string) (a : option bool) (w : World) :
  (1 <= fuel)%nat -> path <> "login" ->
  fst (run is_session_valid w) = Ok true ->
  let req := api_request m path h p d a in
  let r := run (__call fuel m path h p d a) w in
  r = run (await req) (add_event (Called "is_session_valid") w) /\
  trace (snd r) = trace w ++ Called "is_session_valid" :: sent req w /\
  calls "connect" (trace (snd r)) = calls "connect" (trace w).
Proof.
  intros Hfuel Hpath V req r. subst r.
  destruct fuel as [|n]; [lia|]. clear Hfuel.
  assert (E : String.eqb path "login" = false) by (apply String.eqb_neq; exact Hpath).
  rewrite (run_call_valid n m path h p d a w E V). fold req.
  assert (T : trace (snd (run (await req) (add_event (Called "is_session_valid") w)))
              = trace w ++ Called "is_session_valid" :: sent req w).
  { rewrite run_await_trace. cbn [trace add_event].
    change (sent req (add_event (Called "is_session_valid") w)) with (sent req w).
    rewrite <- app_assoc. reflexivity. }
  split; [reflexivity|]. split; [exact T|].
  rewrite T.
  change (Called "is_session_valid" :: sent req w)
    with ([Called "is_session_valid"] ++ sent req w).
  rewrite !calls_app, calls_sent.
  change (calls "connect" [Called "is_session_valid"]) with 0%nat. lia.
Qed.

(** X2. A session cookie whose [expires] does not parse makes the check
    raise, and with it every dispatch on a path other than the login path:
    nothing is sent and no login is tried. *)
Theorem dispatch_with_unreadable_expiry (fuel : nat) (m : Method) (path : string)
    (h : option (list (string * string))) (p : option (list (string * param)))
    (d : option string) (a : option bool) (w : World) (cookie : Morsel) :
  (1 <= fuel)%nat -> path <> "login" ->
  session_cookie w = Some cookie ->
  strptime (expires cookie) expires_format = None ->
  run (__call fuel m path h p d a) w =
  (Raise (ValueError "time data does not match format"),
   add_event (Called "is_session_valid") w).
Proof.
  intros Hfuel Hpath C P. destruct fuel as [|n]; [lia|]. clear Hfuel.
  assert (E : String.eqb path "login" = false) by (apply String.eqb_neq; exact Hpath).
  rewrite (run_call _ _ _ _ _ _ _ _ E), run_is_session_valid, C, P. reflexivity.
Qed.

(** The login exchange of [connect] against an open session and a server
    that answers. *)
Lemma run_connect_answered (n : nat) (w : World)
    (t : datetime) (resp : Response) (rest : list Reply) :
  closed (__client_session (self w)) = false ->
  server w = Arrives t resp :: rest ->
  let login := login_request (__username (self w)) (__password (self w)) in
  run (connect (S (S (S (S n))))) w =
  (match login_outcome resp with
   | Ok authuser_data => may_return authuser_data
   | Raise e => Raise e
   end,
   answered login [Called "connect"; Sent login] t resp rest w).
Proof.
  intros C Sv login. rewrite run_connect, run_get_vivintsky_session, run_await.
  fold login. unfold refused. cbn [self add_event]. rewrite C, andb_false_r.
  unfold receive. cbn [server add_event self clock trace]. rewrite Sv.
  unfold answered. rewrite <- app_assoc.
  destruct (login_outcome resp); reflexivity.
Qed.

(** X3. A dispatch that finds the session invalid, against a server that
    answers the login: it raises what the login exchange raises, it raises
    [AuthenticationError] when the login returns an empty payload, and only
    when the login returns a payload does it send its own request; it does
    so without looking at the session again. *)
Theorem dispatch_after_login (fuel : nat) (m : Method) (path : string)
    (h : option (list (string * string))) (p : option (list (string * param)))
    (d : option string) (a : option bool) (w : World)
    (t : datetime) (resp : Response) (rest : list Reply) :
  (5 <= fuel)%nat -> path <> "login" ->
  fst (run is_session_valid w) = Ok false ->
  closed (__client_session (self w)) = false ->
  server w = Arrives t resp :: rest ->
  let login := login_request (__username (self w)) (__password (self w)) in
  let w1 := answered login
              [Called "is_session_valid"; Called "connect"; Sent login] t resp rest w in
  run (__call fuel m path h p d a) w =
  match login_outcome resp with
  | Raise e => (Raise e, w1)
  | Ok authuser_data =>
      if truthy authuser_data
      then run (await (api_request m path h p d a)) w1
      else (Raise (VivintSkyApiAuthenticationError (JStr "Unable to login to Vivint.")),
            w1)
  end.
Proof.
  intros Hfuel Hpath V C Sv login w1.
  destruct fuel as [|[|[|[|[|n]]]]]; try lia. clear Hfuel.
  assert (E : String.eqb path "login" = false) by (apply String.eqb_neq; exact Hpath).
  rewrite (run_call _ _ _ _ _ _ _ _ E).
  rewrite run_is_session_valid in V |- *. cbn [fst] in V. rewrite V.
  rewrite (run_connect_answered n (add_event (Called "is_session_valid") w) t resp rest C Sv).
  cbn [self add_event]. fold login.
  assert (W : answered login [Called "connect"; Sent login] t resp rest
                (add_event (Called "is_session_valid") w) = w1).
  { unfold w1, answered. cbn [self clock server trace add_event].
    rewrite <- app_assoc. reflexivity. }
  rewrite W.
  destruct (login_outcome resp) as [authuser_data|e]; [|reflexivity].
  unfold may_return. destruct (truthy authuser_data); reflexivity.
Qed.

(** X4. A client made without a session starts with an empty jar: its
    first dispatch on a path other than the login path logs in, with the
    credentials it was made with, before anything else is sent. *)
Theorem first_dispatch_logs_in (fuel : nat) (m : Method) (path : string)
    (h : option (list (string * string))) (p : option (list (string * param)))
    (d : option string) (a : option bool) (w : World) (username password : string) :
  (5 <= fuel)%nat -> path <> "login" ->
  self w = __init__ username password None ->
  let w' := snd (run (__call fuel m path h p d a) w) in
  fst (run is_session_valid w) = Ok false /\
  exists later : list event,
    trace w' = trace w ++ Called "is_session_valid" :: Called "connect"
                       :: Sent (login_request username password) :: later.
Proof.
  intros Hfuel Hpath I w'.
  assert (V : fst (run is_session_valid w) = Ok false).
  { rewrite run_is_session_valid. unfold session_cookie. rewrite I. reflexivity. }
  split; [exact V|]. subst w'.
  destruct fuel as [|[|[|[|[|n]]]]]; try lia. clear Hfuel.
  assert (E : String.eqb path "login" = false) by (apply String.eqb_neq; exact Hpath).
  rewrite (run_call _ _ _ _ _ _ _ _ E).
  rewrite run_is_session_valid in V |- *. cbn [fst] in V. rewrite V.
  pose proof (run_connect_trace n (add_event (Called "is_session_valid") w)) as T.
  cbn [self add_event trace] in T. rewrite I in T. cbn [__init__ __username __password] in T.
  assert (S : sent (login_request username password)
                (add_event (Called "is_session_valid") w)
              = [Sent (login_request username password)]).
  { unfold sent, refused. cbn [self add_event]. rewrite I. reflexivity. }
  rewrite S in T. clear S.
  destruct (run (connect (S (S (S (S n))))) (add_event (Called "is_session_valid") w))
    as [[authuser_data|e] wc]; cbn [snd] in T |- *.
  - destruct (run_trace_grows (await (api_request m path h p d a)) wc) as [evs G].
    exists evs. rewrite G, T, <- !app_assoc. reflexivity.
  - exists []. rewrite T, <- !app_assoc. reflexivity.
Qed.

(** X5. Calling [connect] always logs in: it makes no validity check and
    sends the login request whatever the state of the session cookie. *)
Theorem connect_always_logs_in (fuel : nat) (w : World) :
  (4 <= fuel)%nat ->
  closed (__client_session (self w)) = false ->
  trace (snd (run (connect fuel) w)) =
  trace w ++ [Called "connect";
              Sent (login_request (__username (self w)) (__password (self w)))].
Proof.
  intros Hfuel C. destruct fuel as [|[|[|[|n]]]]; try lia. clear Hfuel.
  rewrite run_connect_trace. unfold sent, refused. rewrite C, andb_false_r.
  reflexivity.
Qed.

(** ** The endpoint operations, with a valid session *)

(** A dispatch with a valid and open session, against a server that
    answers: the response is returned as it is. *)
Lemma run_call_answered (fuel : nat) (m : Method) (path : string) h p d a (w : World)
    (t : datetime) (resp : Response) (rest : list Reply) :
  (1 <= fuel)%nat ->
  String.eqb path "login" = false ->
  fst (run is_session_valid w) = Ok true ->
  closed (__client_session (self w)) = false ->
  server w = Arrives t resp :: rest ->
  let req := api_request m path h p d a in
  run (__call fuel m path h p d a) w =
  (Ok resp, answered req [Called "is_session_valid"; Sent req] t resp rest w).
Proof.
  intros Hfuel E V C Sv req. destruct fuel as [|n]; [lia|]. clear Hfuel.
  rewrite (run_call_valid n m path h p d a w E V), run_await. fold req.
  unfold refused. cbn [self add_event]. rewrite C, andb_false_r.
  unfold receive. cbn [server add_event self clock trace]. rewrite Sv.
  unfold answered. rewrite <- app_assoc. reflexivity.
Qed.

(** What [resp.json()] gives. *)
Lemma run_resp_json (resp : Response) (w : World) :
  run (resp_json resp) w =
  (match json_body resp with
   | Some v => Ok v
   | None => Raise ContentTypeError
   end, w).
Proof. unfold resp_json. destruct (json_body resp); reflexivity. Qed.

(** X6. [get_authuser_data] sends one GET of [authuser]; on status 200 it
    returns the parsed body (and raises if the body is no JSON), on any
    other status, whatever it is, it raises [AuthenticationError]
    "Missing auth user data." and logs nothing. *)
Theorem get_authuser_data_outcomes (fuel : nat) (w : World)
    (t : datetime) (resp : Response) (rest : list Reply) :
  (1 <= fuel)%nat ->
  fst (run is_session_valid w) = Ok true ->
  closed (__client_session (self w)) = false ->
  server w = Arrives t resp :: rest ->
  let req := api_request GET "authuser" None None None None in
  let r := run (get_authuser_data fuel) w in
  snd r = answered req [Called "is_session_valid"; Sent req] t resp rest w /\
  (status resp = 200 ->
     (forall v : json, json_body resp = Some v -> fst r = Ok v) /\
     (json_body resp = None -> fst r = Raise ContentTypeError)) /\
  (status resp <> 200 ->
     fst r = Raise (VivintSkyApiAuthenticationError (JStr "Missing auth user data."))).
Proof.
  intros Hfuel V C Sv req r. subst r. unfold get_authuser_data, __get.
  rewrite run_bind,
    (run_call_answered fuel GET "authuser" None None None None w t resp rest
       Hfuel eq_refl V C Sv).
  fold req. destruct (Z.eqb (status resp) 200) eqn:St.
  - rewrite run_resp_json. split; [reflexivity|]. split.
    + intros _. split; [intros v ->; reflexivity|intros ->; reflexivity].
    + intros N. apply Z.eqb_eq in St. contradiction.
  - split; [reflexivity|]. split.
    + intros Y. apply Z.eqb_neq in St. contradiction.
    + intros _. reflexivity.
Qed.

(** A path with a slash in it is not the login path. *)
Lemma slash_path_not_login (s1 s2 : string) :
  String.eqb (s1 +:+ "/" +:+ s2) "login" = false.
Proof.
  destruct (String.eqb_spec (s1 +:+ "/" +:+ s2) "login") as [e|]; [exfalso|reflexivity].
  destruct s1 as [|c1 [|c2 [|c3 [|c4 [|c5 [|c6 s1]]]]]];
    cbv [String.append] in e; try discriminate e;
    injection e; intros; try discriminate.
  all: destruct s1; discriminate.
Qed.

(** An endpoint operation is a dispatch followed by a reading of the
    response. *)
Lemma run_endpoint {A : Type} (fuel : nat) (m : Method) (path : string) h p d a
    (k : Response -> Prog A) (w : World)
    (t : datetime) (resp : Response) (rest : list Reply) :
  (1 <= fuel)%nat ->
  String.eqb path "login" = false ->
  fst (run is_session_valid w) = Ok true ->
  closed (__client_session (self w)) = false ->
  server w = Arrives t resp :: rest ->
  let req := api_request m path h p d a in
  run (bind (__call fuel m path h p d a) k) w =
  run (k resp) (answered req [Called "is_session_valid"; Sent req] t resp rest w).
Proof.
  intros Hfuel E V C Sv req.
  rewrite run_bind,
    (run_call_answered fuel m path h p d a w t resp rest Hfuel E V C Sv).
  reflexivity.
Qed.

(** X7. [get_panel_credentials] sends one GET of [panel-login/<panel>]; on
    status 200 it returns the parsed body, on any other status it raises
    [AuthenticationError] "Unable to retrieve panel credentials." *)
Theorem get_panel_credentials_outcomes (fuel : nat) (panel_id : Z) (w : World)
    (t : datetime) (resp : Response) (rest : list Reply) :
  (1 <= fuel)%nat ->
  fst (run is_session_valid w) = Ok true ->
  closed (__client_session (self w)) = false ->
  server w = Arrives t resp :: rest ->
  let req := api_request GET ("panel-login/" +:+ pretty panel_id) None None None None in
  let r := run (get_panel_credentials fuel panel_id) w in
  snd r = answered req [Called "is_session_valid"; Sent req] t resp rest w /\
  (status resp = 200 ->
     (forall v : json, json_body resp = Some v -> fst r = Ok v) /\
     (json_body resp = None -> fst r = Raise ContentTypeError)) /\
  (status resp <> 200 ->
     fst r = Raise (VivintSkyApiAuthenticationError
                      (JStr "Unable to retrieve panel credentials."))).
Proof.
  intros Hfuel V C Sv req r. subst r. unfold get_panel_credentials, __get.
  assert (E : String.eqb ("panel-login/" +:+ pretty panel_id) "login" = false)
    by exact (slash_path_not_login "panel-login" (pretty panel_id)).
  rewrite (run_endpoint fuel GET _ None None None None _ w t resp rest
             Hfuel E V C Sv).
  fold req. destruct (Z.eqb (status resp) 200) eqn:St.
  - rewrite run_resp_json. split; [reflexivity|]. split.
    + intros _. split; [intros v ->; reflexivity|intros ->; reflexivity].
    + intros N. apply Z.eqb_eq in St. contradiction.
  - split; [reflexivity|]. split.
    + intros Y. apply Z.eqb_neq in St. contradiction.
    + intros _. reflexivity.
Qed.

(** X8. [get_system_data] sends one GET of [systems/<panel>] with the
    query [includerules=false]; on status 200 it returns the parsed body,
    on any other status it raises [VivintSkyApiError] "Unable to retrieve
    system data." *)
Theorem get_system_data_outcomes (fuel : nat) (panel_id : Z) (w : World)
    (t : datetime) (resp : Response) (rest : list Reply) :
  (1 <= fuel)%nat ->
  fst (run is_session_valid w) = Ok true ->
  closed (__client_session (self w)) = false ->
  server w = Arrives t resp :: rest ->
  let req := api_request GET ("systems/" +:+ pretty panel_id)
               (Some [("Accept-Encoding", "application/json")])
               (Some [("includerules", PStr "false")]) None None in
  let r := run (get_system_data fuel panel_id) w in
  snd r = answered req [Called "is_session_valid"; Sent req] t resp rest w /\
  (status resp = 200 ->
     (forall v : json, json_body resp = Some v -> fst r = Ok v) /\
     (json_body resp = None -> fst r = Raise ContentTypeError)) /\
  (status resp <> 200 ->
     fst r = Raise (VivintSkyApiError "Unable to retrieve system data.")).
Proof.
  intros Hfuel V C Sv req r. subst r. unfold get_system_data, __get.
  assert (E : String.eqb ("systems/" +:+ pretty panel_id) "login" = false)
    by exact (slash_path_not_login "systems" (pretty panel_id)).
  rewrite (run_endpoint fuel GET _ _ _ None None _ w t resp rest
             Hfuel E V C Sv).
  fold req. destruct (Z.eqb (status resp) 200) eqn:St.
  - rewrite run_resp_json. split; [reflexivity|]. split.
    + intros _. split; [intros v ->; reflexivity|intros ->; reflexivity].
    + intros N. apply Z.eqb_eq in St. contradiction.
  - split; [reflexivity|]. split.
    + intros Y. apply Z.eqb_neq in St. contradiction.
    + intros _. reflexivity.
Qed.

(** X9. [set_garage_door_state] sends one PUT of
    [<panel>/<partition>/door/<device>]; on status 200 it returns, on any
    other status it logs the failure at level INFO and raises
    [VivintSkyApiError] "failed to update garage door state" (or, if the
    state has no name, what [GarageDoorState.name] raises). *)
Theorem set_garage_door_state_outcomes (fuel : nat)
    (panel_id partition_id device_id state : Z) (w : World)
    (t : datetime) (resp : Response) (rest : list Reply) :
  (1 <= fuel)%nat ->
  fst (run is_session_valid w) = Ok true ->
  closed (__client_session (self w)) = false ->
  server w = Arrives t resp :: rest ->
  let req := api_request PUT
               (pretty panel_id +:+ "/" +:+ pretty partition_id +:+ "/door/"
                +:+ pretty device_id)
               (Some [("Content-Type", "application/json;charset=utf-8")]) None
               (Some (json_dumps
                        (dict_display [(VivintDeviceAttribute_STATE, JInt state);
                                       (VivintDeviceAttribute_ID, JInt device_id)])))
               None in
  let w1 := answered req [Called "is_session_valid"; Sent req] t resp rest w in
  let r := run (set_garage_door_state fuel panel_id partition_id device_id state) w in
  (status resp = 200 -> r = (Ok tt, w1)) /\
  (status resp <> 200 ->
     (forall name : string, GarageDoorState_name state = Ok name ->
        r = (Raise (VivintSkyApiError "failed to update garage door state"),
             add_event
               (Logged "INFO"
                  ("failed to set state to " +:+ name +:+ " for garage door: "
                   +:+ pretty device_id +:+ " @ " +:+ pretty panel_id +:+ ":"
                   +:+ pretty partition_id)) w1)) /\
     (forall e : exn, GarageDoorState_name state = Raise e -> r = (Raise e, w1))).
Proof.
  intros Hfuel V C Sv req w1 r. subst r. unfold set_garage_door_state, __put.
  rewrite (run_endpoint fuel PUT _ _ None _ None _ w t resp rest
             Hfuel (slash_path_not_login _ _) V C Sv).
  fold req. fold w1. destruct (Z.eqb (status resp) 200) eqn:St; cbn [negb].
  - split; [reflexivity|]. intros N. apply Z.eqb_eq in St. contradiction.
  - split.
    + intros Y. apply Z.eqb_neq in St. contradiction.
    + intros _. split.
      * intros name ->. reflexivity.
      * intros e ->. reflexivity.
Qed.

(** X10. [set_lock_state] sends one PUT of
    [<panel>/<partition>/locks/<device>]; on status 200 it returns, on any
    other status it logs the failure at level INFO and raises
    [VivintSkyApiError] "failed to update lock status". *)
Theorem set_lock_state_outcomes (fuel : nat)
    (panel_id partition_id device_id : Z) (locked : bool) (w : World)
    (t : datetime) (resp : Response) (rest : list Reply) :
  (1 <= fuel)%nat ->
  fst (run is_session_valid w) = Ok true ->
  closed (__client_session (self w)) = false ->
  server w = Arrives t resp :: rest ->
  let req := api_request PUT
               (pretty panel_id +:+ "/" +:+ pretty partition_id +:+ "/locks/"
                +:+ pretty device_id)
               (Some [("Content-Type", "application/json;charset=utf-8")]) None
               (Some (json_dumps
                        (dict_display [(VivintDeviceAttribute_STATE, JBool locked);
                                       (VivintDeviceAttribute_ID, JInt device_id)])))
               None in
  let w1 := answered req [Called "is_session_valid"; Sent req] t resp rest w in
  let r := run (set_lock_state fuel panel_id partition_id device_id locked) w in
  (status resp = 200 -> r = (Ok tt, w1)) /\
  (status resp <> 200 ->
     r = (Raise (VivintSkyApiError "failed to update lock status"),
          add_event
            (Logged "INFO"
               ("failed to set status locked: " +:+ (if locked then "True" else "False")
                +:+ " for lock: " +:+ pretty device_id +:+ " @ "
                +:+ pretty panel_id +:+ ":" +:+ pretty partition_id)) w1)).
Proof.
  intros Hfuel V C Sv req w1 r. subst r. unfold set_lock_state, __put.
  rewrite (run_endpoint fuel PUT _ _ None _ None _ w t resp rest
             Hfuel (slash_path_not_login _ _) V C Sv).
  fold req. fold w1. destruct (Z.eqb (status resp) 200) eqn:St; cbn [negb].
  - split; [reflexivity|]. intros N. apply Z.eqb_eq in St. contradiction.
  - split.
    + intros Y. apply Z.eqb_neq in St. contradiction.
    + intros _. destruct locked; reflexivity.
Qed.

(** X11. [set_alarm_state] sends one PUT of
    [<panel>/<partition>/armedstates]; on status 200 it returns; on any
    other status it logs the failure at level ERROR and then raises the
    [AttributeError] of [self.id], for no status [VivintSkyApiError]. *)
Theorem set_alarm_state_outcomes (fuel : nat)
    (panel_id partition_id state : Z) (w : World)
    (t : datetime) (resp : Response) (rest : list Reply) :
  (1 <= fuel)%nat ->
  fst (run is_session_valid w) = Ok true ->
  closed (__client_session (self w)) = false ->
  server w = Arrives t resp :: rest ->
  let req := api_request PUT
               (pretty panel_id +:+ "/" +:+ pretty partition_id +:+ "/armedstates")
               (Some [("Content-Type", "application/json;charset=UTF-8")]) None
               (Some (json_dumps (JDict [("system", JInt panel_id);
                                         ("partitionId", JInt partition_id);
                                         ("armState", JInt state);
                                         ("forceArm", JBool false)])))
               None in
  let w1 := answered req [Called "is_session_valid"; Sent req] t resp rest w in
  let r := run (set_alarm_state fuel panel_id partition_id state) w in
  (status resp = 200 -> r = (Ok tt, w1)) /\
  (status resp <> 200 ->
     (forall name : string, ArmedState_name state = Ok name ->
        r = (Raise (AttributeError "VivintSkyApi" "id"),
             add_event
               (Logged "ERROR"
                  ("failed to set state " +:+ name +:+ ". Code: "
                   +:+ pretty (status resp) +:+ ", body: " +:+ text resp +:+ ","
                   +:+ "request url: " +:+ request_info resp)) w1)) /\
     (forall e : exn, ArmedState_name state = Raise e -> r = (Raise e, w1))).
Proof.
  intros Hfuel V C Sv req w1 r. subst r. unfold set_alarm_state, __put.
  rewrite (run_endpoint fuel PUT _ _ None _ None _ w t resp rest
             Hfuel (slash_path_not_login _ _) V C Sv).
  fold req. fold w1. destruct (Z.eqb (status resp) 200) eqn:St; cbn [negb].
  - split; [reflexivity|]. intros N. apply Z.eqb_eq in St. contradiction.
  - split.
    + intros Y. apply Z.eqb_neq in St. contradiction.
    + intros _. split.
      * intros name ->. reflexivity.
      * intros e ->. reflexivity.
Qed.

(** X12. [request_camera_thumbnail] sends one GET of
    [<panel>/<partition>/<device>/request-camera-thumbnail]; on a status
    from 200 to 299 it returns; on any other status it raises the
    [AttributeError] of [self.id] and logs nothing. *)
Theorem request_camera_thumbnail_outcomes (fuel : nat)
    (panel_id partition_id device_id : Z) (w : World)
    (t : datetime) (resp : Response) (rest : list Reply) :
  (1 <= fuel)%nat ->
  fst (run is_session_valid w) = Ok true ->
  closed (__client_session (self w)) = false ->
  server w = Arrives t resp :: rest ->
  let req := api_request GET
               (pretty panel_id +:+ "/" +:+ pretty partition_id +:+ "/"
                +:+ pretty device_id +:+ "/request-camera-thumbnail")
               None None None None in
  let w1 := answered req [Called "is_session_valid"; Sent req] t resp rest w in
  let r := run (request_camera_thumbnail fuel panel_id partition_id device_id) w in
  (200 <= status resp <= 299 -> r = (Ok tt, w1)) /\
  (status resp < 200 \/ 299 < status resp ->
     r = (Raise (AttributeError "VivintSkyApi" "id"), w1)).
Proof.
  intros Hfuel V C Sv req w1 r. subst r. unfold request_camera_thumbnail, __get.
  rewrite (run_endpoint fuel GET _ None None None None _ w t resp rest
             Hfuel (slash_path_not_login _ _) V C Sv).
  fold req. fold w1.
  destruct (Z.ltb (status resp) 200) eqn:L, (Z.gtb (status resp) 299) eqn:G;
    cbn [orb];
    try apply Z.ltb_lt in L; try apply Z.ltb_ge in L;
    try apply Z.gtb_lt in G;
    try (assert (status resp <= 299) by (destruct (Z.gtb_spec (status resp) 299); [discriminate|lia]));
    (split; [intros; try lia; reflexivity|intros; try lia; reflexivity]).
Qed.

(** X13. [get_camera_thumbnail_url] sends one GET of
    [<panel>/<partition>/<device>/camera-thumbnail] with the query [time]
    and without following redirects; on status 302 it returns the first
    [Location] header, [None] if there is none; on any other status it
    raises the [AttributeError] of [self.id] and logs nothing. *)
Theorem get_camera_thumbnail_url_outcomes (fuel : nat)
    (panel_id partition_id device_id : Z) (thumbnail_timestamp : datetime) (w : World)
    (t : datetime) (resp : Response) (rest : list Reply) :
  (1 <= fuel)%nat ->
  fst (run is_session_valid w) = Ok true ->
  closed (__client_session (self w)) = false ->
  server w = Arrives t resp :: rest ->
  let req := api_request GET
               (pretty panel_id +:+ "/" +:+ pretty partition_id +:+ "/"
                +:+ pretty device_id +:+ "/camera-thumbnail")
               None (Some [("time", PTime thumbnail_timestamp)]) None (Some false) in
  let w1 := answered req [Called "is_session_valid"; Sent req] t resp rest w in
  let r := run (get_camera_thumbnail_url fuel panel_id partition_id device_id
                  thumbnail_timestamp) w in
  (status resp = 302 -> r = (Ok (headers_get "Location" (resp_headers resp)), w1)) /\
  (status resp <> 302 -> r = (Raise (AttributeError "VivintSkyApi" "id"), w1)).
Proof.
  intros Hfuel V C Sv req w1 r. subst r. unfold get_camera_thumbnail_url, __get.
  rewrite (run_endpoint fuel GET _ None _ None _ _ w t resp rest
             Hfuel (slash_path_not_login _ _) V C Sv).
  fold req. fold w1. destruct (Z.eqb (status resp) 302) eqn:St; cbn [negb].
  - split; [reflexivity|]. intros N. apply Z.eqb_eq in St. contradiction.
  - split; [|reflexivity].
    intros Y. apply Z.eqb_neq in St. contradiction.
Qed.

(** ** What the operations leave alone *)

Lemma same_but_cookies_refl (c : VivintSkyApi) : same_but_cookies c c.
Proof. repeat split. Qed.

Lemma same_but_cookies_trans (c1 c2 c3 : VivintSkyApi) :
  same_but_cookies c1 c2 -> same_but_cookies c2 c3 -> same_but_cookies c1 c3.
Proof.
  intros (A1 & A2 & A3 & A4 & A5) (B1 & B2 & B3 & B4 & B5).
  repeat split; congruence.
Qed.

Lemma receive_same_but_cookies (req : Request) (w : World) :
  same_but_cookies (self w) (self (snd (receive req w))).
Proof.
  unfold receive. destruct (server w) as [|[t resp|t e] rest]; cbn [snd self];
    try apply same_but_cookies_refl.
  unfold store_cookies. destruct (own_session req); repeat split.
Qed.

Lemma run_writes_nothing {A : Type} (p : Prog A) (w : World) :
  writes_nothing p -> same_but_cookies (self w) (self (snd (run p w))).
Proof.
  revert w. induction p as [x|e|k IH|c k IH|k IH|ev k IH|req k IH]; intros w H;
    cbn [run writes_nothing] in *.
  - apply same_but_cookies_refl.
  - apply same_but_cookies_refl.
  - apply IH, H.
  - destruct H.
  - apply IH, H.
  - apply (IH (add_event ev w) H).
  - destruct (refused req w); [apply same_but_cookies_refl|].
    pose proof (receive_same_but_cookies req (add_event (Sent req) w)) as R.
    destruct (receive req (add_event (Sent req) w)) as [[resp|e] w']; cbn [snd] in *.
    + apply (same_but_cookies_trans _ (self w') _ R). apply IH, H.
    + exact R.
Qed.

Lemma writes_nothing_bind {A B : Type} (m : Prog A) (f : A -> Prog B) :
  writes_nothing m -> (forall x, writes_nothing (f x)) -> writes_nothing (bind m f).
Proof.
  induction m as [x|e|k IH|c k IH|k IH|ev k IH|req k IH]; intros Hm Hf;
    cbn [bind writes_nothing] in *.
  - apply Hf.
  - exact I.
  - intros c. apply IH; [apply Hm|exact Hf].
  - destruct Hm.
  - intros t. apply IH; [apply Hm|exact Hf].
  - apply IH; [exact Hm|exact Hf].
  - intros r. apply IH; [apply Hm|exact Hf].
Qed.

Lemma is_session_valid_writes_nothing : writes_nothing is_session_valid.
Proof.
  unfold is_session_valid. cbn. intros c.
  destruct (jar_get _ _ _) as [cookie|]; [|exact I].
  destruct (strptime _ _); cbn; [intros; exact I|exact I].
Qed.

Lemma resp_json_writes_nothing (resp : Response) : writes_nothing (resp_json resp).
Proof. unfold resp_json. destruct (json_body resp); exact I. Qed.

Lemma lift_writes_nothing {A : Type} (r : result A) : writes_nothing (lift r).
Proof. destruct r; exact I. Qed.

Lemma self_field_writes_nothing (name : string) : writes_nothing (self_field name).
Proof.
  unfold self_field. cbn. intros c. apply writes_nothing_bind.
  - apply lift_writes_nothing.
  - intros v. exact I.
Qed.

(** The dispatcher and the login exchange assign no attribute, at any
    depth. *)
Lemma dispatcher_writes_nothing (fuel : nat) :
  (forall m path h p d a, writes_nothing (__call fuel m path h p d a)) /\
  writes_nothing (connect fuel) /\
  (forall username password,
     writes_nothing (__get_vivintsky_session fuel username password)) /\
  (forall path d, writes_nothing (__post fuel path d)).
Proof.
  induction fuel as [|n (IHcall & IHconnect & IHlogin & IHpost)].
  - repeat split; intros; exact I.
  - split; [|split; [|split]].
    + intros m path h p d a. cbn [__call]. apply writes_nothing_bind.
      * destruct (negb (String.eqb path "login")); [|exact I].
        apply writes_nothing_bind; [apply is_session_valid_writes_nothing|].
        intros valid. destruct (negb valid); [|exact I].
        apply writes_nothing_bind; [exact IHconnect|intros; exact I].
      * intros _. cbn. intros resp. exact I.
    + cbn [connect]. cbn. intros c. apply writes_nothing_bind; [apply IHlogin|].
      intros authuser_data. destruct (negb (truthy authuser_data)); exact I.
    + intros username password. cbn [__get_vivintsky_session].
      apply writes_nothing_bind; [apply IHpost|].
      intros resp. apply writes_nothing_bind; [apply resp_json_writes_nothing|].
      intros data. destruct (Z.eqb (status resp) 200); [exact I|].
      destruct (Z.eqb (status resp) 401).
      * apply writes_nothing_bind; [|intros; exact I].
        unfold getitem. destruct data as [| | | | |l|items]; try exact I.
        destruct (items_get "msg" items); exact I.
      * apply writes_nothing_bind; [|intros; exact I].
        unfold raise_for_status. destruct (Z.leb 400 (status resp)); exact I.
    + intros path d. cbn [__post]. apply IHcall.
Qed.

(** X14. No method that goes through the dispatcher changes the
    credentials, the flag of the session's origin or the device cache, and
    none closes the session: whatever the server answers, they leave of the
    client all but the cookies as it was. *)
Theorem operations_keep_client (fuel : nat) (w : World) :
  let keeps (A : Type) (p : Prog A) :=
    same_but_cookies (self w) (self (snd (run p w))) in
  (forall m path h p d a, keeps _ (__call fuel m path h p d a)) /\
  keeps _ (connect fuel) /\
  keeps _ (get_authuser_data fuel) /\
  (forall panel_id, keeps _ (get_panel_credentials fuel panel_id)) /\
  (forall panel_id, keeps _ (get_system_data fuel panel_id)) /\
  (forall panel_id partition_id state,
     keeps _ (set_alarm_state fuel panel_id partition_id state)) /\
  (forall panel_id partition_id device_id state,
     keeps _ (set_garage_door_state fuel panel_id partition_id device_id state)) /\
  (forall panel_id partition_id device_id locked,
     keeps _ (set_lock_state fuel panel_id partition_id device_id locked)) /\
  (forall panel_id partition_id device_id,
     keeps _ (request_camera_thumbnail fuel panel_id partition_id device_id)) /\
  (forall panel_id partition_id device_id thumbnail_timestamp,
     keeps _ (get_camera_thumbnail_url fuel panel_id partition_id device_id
                thumbnail_timestamp)).
Proof.
  intros keeps. subst keeps. cbv beta.
  destruct (dispatcher_writes_nothing fuel) as (Hcall & Hconnect & _ & _).
  refine (conj _ (conj _ (conj _ (conj _ (conj _ (conj _ (conj _ (conj _
            (conj _ _)))))))));
    intros; apply run_writes_nothing.
  - apply Hcall.
  - exact Hconnect.
  - apply writes_nothing_bind; [apply Hcall|]. intros resp.
    destruct (Z.eqb (status resp) 200); [apply resp_json_writes_nothing|exact I].
  - apply writes_nothing_bind; [apply Hcall|]. intros resp.
    destruct (Z.eqb (status resp) 200); [apply resp_json_writes_nothing|exact I].
  - apply writes_nothing_bind; [apply Hcall|]. intros resp.
    destruct (Z.eqb (status resp) 200); [apply resp_json_writes_nothing|exact I].
  - apply writes_nothing_bind; [apply Hcall|]. intros resp.
    destruct (negb (Z.eqb (status resp) 200)); [|exact I].
    apply writes_nothing_bind; [apply lift_writes_nothing|]. intros name.
    apply writes_nothing_bind; [exact I|]. intros _.
    apply writes_nothing_bind; [apply lift_writes_nothing|]. intros name'.
    apply writes_nothing_bind; [apply self_field_writes_nothing|]. intros; exact I.
  - apply writes_nothing_bind; [apply Hcall|]. intros resp.
    destruct (negb (Z.eqb (status resp) 200)); [|exact I].
    apply writes_nothing_bind; [apply lift_writes_nothing|]. intros name.
    apply writes_nothing_bind; [exact I|]. intros; exact I.
  - apply writes_nothing_bind; [apply Hcall|]. intros resp.
    destruct (negb (Z.eqb (status resp) 200)); [|exact I].
    apply writes_nothing_bind; [exact I|]. intros; exact I.
  - apply writes_nothing_bind; [apply Hcall|]. intros resp.
    destruct (Z.ltb (status resp) 200 || Z.gtb (status resp) 299)%bool; [|exact I].
    apply writes_nothing_bind; [apply self_field_writes_nothing|]. intros; exact I.
  - apply writes_nothing_bind; [apply Hcall|]. intros resp.
    destruct (negb (Z.eqb (status resp) 302)); [|exact I].
    apply writes_nothing_bind; [apply self_field_writes_nothing|]. intros id.
    apply writes_nothing_bind; [exact I|]. intros; exact I.
Qed.

(** ** More on the device cache *)

(** X15. A lookup only ever adds to the cache: every entry that is there
    stays, with its list, whatever the lookup meets; and the lookup leaves
    the session, the credentials and the flag as they were. *)
Theorem zwave_cache_only_grows (m p t : Z) (w : World) :
  let w' := snd (run (get_zwave_details m p t) w) in
  (forall (key : string) (info : list string),
     __zwave_device_info (self w) !! key = Some info ->
     __zwave_device_info (self w') !! key = Some info) /\
  __client_session (self w') = __client_session (self w) /\
  __username (self w') = __username (self w) /\
  __password (self w') = __password (self w) /\
  __has_custom_client_session (self w') = __has_custom_client_session (self w).
Proof.
  intros w'. subst w'.
  destruct (__zwave_device_info (self w) !! zwave_key m p t) as [found|] eqn:L.
  - rewrite (run_get_zwave_details_hit m p t w found L). repeat split; auto.
  - rewrite (run_get_zwave_details_miss m p t w L).
    pose proof (receive_fresh (zwave_request (zwave_key m p t))
                  (add_event (Sent (zwave_request (zwave_key m p t))) w) eq_refl) as F.
    destruct (receive _ _) as [[resp|e] w1]; cbn [fst snd] in *.
    + cbn [self add_event] in F.
      destruct (zwave_outcome resp) as [[info|]|e]; cbn [zwave_store];
        cbn [self set_self set_zwave_device_info __zwave_device_info __client_session
             __username __password __has_custom_client_session];
        rewrite F; repeat split; auto.
      intros key info' H.
      rewrite lookup_insert_ne; [exact H|]. intros <-. congruence.
    + cbn [self add_event] in F. rewrite F. repeat split; auto.
Qed.

(** *** Splitting the title *)

Lemma append_empty_r (s : string) : s +:+ "" = s.
Proof.
  induction s as [|c s IH]; [reflexivity|].
  change (String c s +:+ "") with (String c (s +:+ "")). rewrite IH. reflexivity.
Qed.

Lemma append_assoc (a b c : string) : (a +:+ b) +:+ c = a +:+ (b +:+ c).
Proof.
  induction a as [|x a IH]; [reflexivity|].
  change ((String x a +:+ b) +:+ c) with (String x ((a +:+ b) +:+ c)).
  rewrite IH. reflexivity.
Qed.

Lemma prefix_append (sep s : string) :
  String.prefix sep s = true -> exists rest : string, s = sep +:+ rest.
Proof.
  revert s. induction sep as [|a sep IH]; intros s H.
  - exists s. reflexivity.
  - destruct s as [|b s]; [discriminate|]. cbn [String.prefix] in H.
    destruct (ascii_dec a b) as [->|]; [|discriminate].
    destruct (IH s H) as [rest ->]. exists rest. reflexivity.
Qed.

(** Cutting a string at a separator and joining the pieces with it gives
    the string back; there is always at least one piece. *)
Lemma split_from_join (c0 : ascii) (sep' : string) (s : string) :
  forall (skip : nat) (acc : string),
    split_from (String c0 sep') skip acc s <> [] /\
    forall s1 s2 : string,
      s = s1 +:+ s2 -> String.length s1 = skip ->
      join (String c0 sep') (split_from (String c0 sep') skip acc s) = acc +:+ s2.
Proof.
  induction s as [|c s IH]; intros skip acc.
  - split; [discriminate|]. intros s1 s2 E L.
    destruct s1; [|discriminate]. cbv [String.append] in E. subst s2.
    cbn. symmetry. apply append_empty_r.
  - destruct skip as [|k].
    + cbn [split_from].
      destruct (String.prefix (String c0 sep') (String c s)) eqn:P.
      * split; [discriminate|]. intros s1 s2 E L.
        destruct s1; [|discriminate]. cbv [String.append] in E. subst s2.
        destruct (prefix_append _ _ P) as [rest R].
        change (String c0 sep' +:+ rest) with (String c0 (sep' +:+ rest)) in R.
        injection R as -> ->.
        replace (String.length (String c0 sep') - 1)%nat with (String.length sep')
          by (cbn [String.length]; lia).
        destruct (IH (String.length sep') "") as [N J].
        specialize (J sep' rest eq_refl eq_refl).
        destruct (split_from (String c0 sep') (String.length sep') "" (sep' +:+ rest))
          as [|y l]; [contradiction N; reflexivity|].
        change (join (String c0 sep') (acc :: y :: l))
          with (acc +:+ String c0 sep' +:+ join (String c0 sep') (y :: l)).
        rewrite J. reflexivity.
      * destruct (IH 0%nat (acc +:+ String c "")) as [N J].
        split; [exact N|]. intros s1 s2 E L.
        destruct s1; [|discriminate]. cbv [String.append] in E. subst s2.
        rewrite (J "" s eq_refl eq_refl). apply append_assoc.
    + cbn [split_from]. destruct (IH k acc) as [N J].
      split; [exact N|]. intros s1 s2 E L.
      destruct s1 as [|c1 s1]; [discriminate|].
      change (String c1 s1 +:+ s2) with (String c1 (s1 +:+ s2)) in E.
      injection E as -> ->. injection L as L.
      apply (J s1 s2 eq_refl L).
Qed.

(** X16. What a lookup returns on success is never empty, and its parts,
    joined with " - ", are the title that was found: nothing of the title
    is lost in the cache. *)
Theorem zwave_details_join_to_title (m p t : Z) (w : World)
    (at_time : datetime) (resp : Response) (rest : list Reply) (title : string) :
  __zwave_device_info (self w) !! zwave_key m p t = None ->
  server w = Arrives at_time resp :: rest ->
  status resp = 200 -> re_search_title (text resp) = Some title ->
  exists parts : list string,
    fst (run (get_zwave_details m p t) w) = Ok (Some parts) /\
    parts <> [] /\ join " - " parts = title.
Proof.
  intros Miss Sv St Ti.
  rewrite (run_get_zwave_details_answered m p t w at_time resp rest Miss Sv).
  unfold zwave_outcome. rewrite St, Ti, Z.eqb_refl. cbn [fst].
  exists (split " - " title). split; [reflexivity|].
  unfold split.
  destruct (split_from_join " "%char "- " title 0%nat "") as [N J].
  split; [exact N|]. apply (J "" title eq_refl eq_refl).
Qed.

(** *** The keys of the cache *)

Lemma pretty_N_char_no_colon (x : N) : pretty_N_char x <> ":"%char.
Proof. unfold pretty_N_char. repeat case_match; discriminate. Qed.

Lemma pretty_N_go_colon_free (x : N) (s : string) :
  colon_free s -> colon_free (pretty_N_go x s).
Proof.
  revert s. induction (N.lt_wf_0 x) as [x _ IH]; intros s H.
  assert (x = 0 \/ 0 < x)%N as [->|Hx] by lia.
  - rewrite pretty_N_go_0. exact H.
  - rewrite pretty_N_go_step by exact Hx. apply IH.
    + apply N.div_lt; [exact Hx|reflexivity].
    + split; [apply pretty_N_char_no_colon|exact H].
Qed.

Lemma colon_free_append (a b : string) :
  colon_free a -> colon_free b -> colon_free (a +:+ b).
Proof.
  induction a as [|c a IH]; intros Ha Hb; [exact Hb|].
  destruct Ha as [Hc Ha]. split; [exact Hc|]. apply IH; assumption.
Qed.

Lemma pretty_N_colon_free (x : N) : colon_free (pretty x).
Proof.
  unfold pretty, pretty_N. destruct (decide (x = 0%N)).
  - split; [discriminate|exact I].
  - apply pretty_N_go_colon_free. exact I.
Qed.

(** A number prints without a colon. *)
Lemma pretty_Z_colon_free (z : Z) : colon_free (pretty z).
Proof.
  destruct z as [|x|x]; unfold pretty, pretty_Z.
  - split; [discriminate|exact I].
  - apply pretty_N_colon_free.
  - apply (colon_free_append "-"); [split; [discriminate|exact I]|].
    apply pretty_N_colon_free.
Qed.

Lemma colon_cut_unique (a a' r r' : string) :
  colon_free a -> colon_free a' ->
  a +:+ ":" +:+ r = a' +:+ ":" +:+ r' -> a = a' /\ r = r'.
Proof.
  revert a'. induction a as [|c a IH]; intros [|c' a'] Ha Ha' E;
    cbv [String.append] in E; fold String.append in E.
  - injection E as ->. split; reflexivity.
  - injection E as <- _. destruct Ha' as [Hc _]. contradiction Hc; reflexivity.
  - injection E as -> _. destruct Ha as [Hc _]. contradiction Hc; reflexivity.
  - injection E as -> E. destruct Ha as [_ Ha], Ha' as [_ Ha'].
    destruct (IH a' Ha Ha' E) as [-> ->]. split; reflexivity.
Qed.

Lemma zwave_key_inj (m p t m' p' t' : Z) :
  zwave_key m p t = zwave_key m' p' t' -> m = m' /\ p = p' /\ t = t'.
Proof.
  unfold zwave_key. intros E.
  apply colon_cut_unique in E as [Em E]; try apply pretty_Z_colon_free.
  apply colon_cut_unique in E as [Ep Et]; try apply pretty_Z_colon_free.
  apply (inj pretty) in Em, Ep, Et. auto.
Qed.

(** X17. Different triples of numbers have different keys, so a lookup of
    one triple leaves the entry of every other triple as it was, there or
    not: details stored for one device are never given for another. *)
Theorem zwave_lookups_do_not_mix (m p t m' p' t' : Z) (w : World) :
  m <> m' \/ p <> p' \/ t <> t' ->
  zwave_key m p t <> zwave_key m' p' t' /\
  __zwave_device_info (self (snd (run (get_zwave_details m p t) w)))
    !! zwave_key m' p' t'
  = __zwave_device_info (self w) !! zwave_key m' p' t'.
Proof.
  intros D.
  assert (K : zwave_key m p t <> zwave_key m' p' t').
  { intros E. apply zwave_key_inj in E as (-> & -> & ->).
    destruct D as [D|[D|D]]; apply D; reflexivity. }
  split; [exact K|].
  destruct (__zwave_device_info (self w) !! zwave_key m p t) as [found|] eqn:L.
  - rewrite (run_get_zwave_details_hit m p t w found L). reflexivity.
  - rewrite (run_get_zwave_details_miss m p t w L).
    pose proof (receive_fresh (zwave_request (zwave_key m p t))
                  (add_event (Sent (zwave_request (zwave_key m p t))) w) eq_refl) as F.
    destruct (receive _ _) as [[resp|e] w1]; cbn [fst snd] in *;
      cbn [self add_event] in F.
    + destruct (zwave_outcome resp) as [[info|]|e]; cbn [zwave_store];
        cbn [self set_self set_zwave_device_info __zwave_device_info];
        rewrite F; [|reflexivity|reflexivity].
      apply lookup_insert_ne. exact K.
    + rewrite F. reflexivity.
Qed.

(** *** Two lookups in one event loop *)

(** A lookup that misses runs up to its request and suspends there, with
    the client as it was. *)
Lemma advance_get_zwave_details_miss (m p t : Z) (w : World) :
  __zwave_device_info (self w) !! zwave_key m p t = None ->
  exists k : Response -> Prog (option (list string)),
    advance (get_zwave_details m p t) w =
    (Blocked (zwave_request (zwave_key m p t)) k,
     add_event (Sent (zwave_request (zwave_key m p t))) w).
Proof.
  intros Miss. unfold get_zwave_details. fold (zwave_key m p t).
  cbn [bind get_self advance]. rewrite Miss.
  cbn [bind await advance]. unfold refused. cbn [own_session andb].
  eexists. reflexivity.
Qed.

(** X18. The cache has no guard for lookups in flight: two lookups of a
    key that is not cached, started one after the other before any reply
    is delivered, each send their own request. *)
Theorem concurrent_lookups_both_fetch (m p t : Z) (w : World) :
  __zwave_device_info (self w) !! zwave_key m p t = None ->
  let req := zwave_request (zwave_key m p t) in
  exists k1 k2 : Response -> Prog (option (list string)),
    run_schedule [0; 1]%nat
      ([Ready (get_zwave_details m p t); Ready (get_zwave_details m p t)], w)
    = ([Blocked req k1; Blocked req k2],
       add_event (Sent req) (add_event (Sent req) w)).
Proof.
  intros Miss req.
  destruct (advance_get_zwave_details_miss m p t w Miss) as [k1 A1].
  destruct (advance_get_zwave_details_miss m p t (add_event (Sent req) w) Miss)
    as [k2 A2].
  exists k1, k2. unfold run_schedule, turn, req.
  cbn [fold_left fst snd lookup list_lookup resume].
  rewrite A1. cbn [fst snd insert list_insert lookup list_lookup resume].
  fold req in A2 |- *. rewrite A2. reflexivity.
Qed.

(** ** Edges of the login exchange and of the lookup *)

(** X19. The login exchange reads the body before it looks at the status:
    a body that is no JSON makes it raise the error of [json()] whatever
    the status, 200 included; and a 401 whose object has no [msg] makes it
    raise [KeyError] instead of [AuthenticationError]. *)
Theorem login_reads_body_first (fuel : nat) (username password : string) (w : World)
    (t : datetime) (resp : Response) (rest : list Reply) :
  (3 <= fuel)%nat ->
  closed (__client_session (self w)) = false ->
  server w = Arrives t resp :: rest ->
  let r := fst (run (__get_vivintsky_session fuel username password) w) in
  (json_body resp = None -> r = Raise ContentTypeError) /\
  (status resp = 401 ->
     forall items : list (string * json),
       json_body resp = Some (JDict items) -> items_get "msg" items = None ->
       r = Raise (KeyError "msg")).
Proof.
  intros Hfuel C Sv r. destruct fuel as [|[|[|n]]]; try lia. clear Hfuel.
  subst r. rewrite (run_login_answered n username password w t resp rest C Sv).
  unfold login_outcome. split.
  - intros ->. reflexivity.
  - intros -> items -> ->. reflexivity.
Qed.

(** X20. Two answers make a lookup end without a list and without an
    entry in the cache: a page with status 200 and no title makes it raise
    [TypeError], and a status below 400 other than 200 makes it return
    [None] without raising. *)
Theorem zwave_lookup_without_details (m p t : Z) (w : World)
    (at_time : datetime) (resp : Response) (rest : list Reply) :
  __zwave_device_info (self w) !! zwave_key m p t = None ->
  server w = Arrives at_time resp :: rest ->
  let r := run (get_zwave_details m p t) w in
  let w1 := {| self := self w; clock := at_time; server := rest;
               trace := trace w ++ [Sent (zwave_request (zwave_key m p t))] |} in
  (status resp = 200 -> re_search_title (text resp) = None ->
     r = (Raise (TypeError "'NoneType' object is not subscriptable"), w1)) /\
  (status resp <> 200 -> status resp < 400 -> r = (Ok None, w1)).
Proof.
  intros Miss Sv r w1. subst r.
  rewrite (run_get_zwave_details_answered m p t w at_time resp rest Miss Sv).
  fold w1. unfold zwave_outcome. split.
  - intros -> ->. reflexivity.
  - intros N L. apply Z.eqb_neq in N. rewrite N.
    apply Z.leb_gt in L. rewrite L. reflexivity.
Qed.

End MoreProperties.

(** * Sample runs

    Here the library is [Sample.library]. *)

Import Sample.

(** C2 at three clients: no cookie, a cookie good until 2027 and one that
    ran out with 2025, checked on 1 June 2026. *)
Lemma C2_is_session_valid_witness :
  fst (run is_session_valid (world ∅ [])) = Ok false /\
  fst (run is_session_valid (world (jar_with fresh_cookie) [])) = Ok true /\
  fst (run is_session_valid (world (jar_with stale_cookie) [])) = Ok false.
Proof.
  split; [|split].
  - apply (C2_is_session_valid (world ∅ [])). reflexivity.
  - apply (C2_is_session_valid (world (jar_with fresh_cookie) [])) with fresh_cookie.
    + reflexivity.
    + exists 63934358400000000. split; [reflexivity|]. reflexivity.
  - apply (C2_is_session_valid (world (jar_with stale_cookie) []))
      with stale_cookie 63902822400000000.
    + reflexivity.
    + reflexivity.
    + discriminate.
Defined.

(** C1 on the client whose session ran out: a GET of [authuser] enters
    [connect] once, then sends its request and returns the answer to it; with
    a server that refuses the login it raises the refusal and sends nothing
    more; a POST to [login] sends its request and nothing else. *)
Lemma C1_dispatch_reauthenticates_witness :
  fst (run is_session_valid expired_world) = Ok false /\
  calls "connect"
    (trace (snd (run (__call 5 GET "authuser" None None None None) expired_world)))
  = 1%nat /\
  fst (run (__call 5 GET "authuser" None None None None) expired_world)
  = Ok (response 200) /\
  trace (snd (run (__call 5 GET "authuser" None None None None) expired_world))
  = [Called "is_session_valid"; Called "connect";
     Sent (login_request "user@example.com" "secret");
     Sent (api_request GET "authuser" None None None None)] /\
  fst (run (__call 5 GET "authuser" None None None None)
         (world (jar_with stale_cookie) [Arrives now login_rejected]))
  = Raise (VivintSkyApiAuthenticationError (JStr "Invalid credentials")) /\
  trace (snd (run (__call 5 GET "authuser" None None None None)
                (world (jar_with stale_cookie) [Arrives now login_rejected])))
  = [Called "is_session_valid"; Called "connect";
     Sent (login_request "user@example.com" "secret")] /\
  trace (snd (run (__call 5 POST "login" None None None None) expired_world))
  = [Sent (api_request POST "login" None None None None)].
Proof.
  split; [reflexivity|].
  destruct (C1_dispatch_reauthenticates 5 GET "authuser"
              None None None None expired_world) as [_ H]; [lia|].
  destruct H as (T & Tr & _ & C & Hok & _); [discriminate|reflexivity|].
  destruct (Hok (JDict [("u", JDict [("_id", JStr "abc")])])
              (snd (run (connect 4) (add_event (Called "is_session_valid") expired_world))))
    as [HT R]; [reflexivity|].
  destruct (C1_dispatch_reauthenticates 5 GET "authuser" None None None None
              (world (jar_with stale_cookie) [Arrives now login_rejected]))
    as [_ H']; [lia|].
  destruct H' as (T' & Tr' & _ & _ & _ & Hraise); [discriminate|reflexivity|].
  destruct (Hraise (VivintSkyApiAuthenticationError (JStr "Invalid credentials"))
              (snd (run (connect 4)
                      (add_event (Called "is_session_valid")
                         (world (jar_with stale_cookie) [Arrives now login_rejected])))))
    as [HT' R']; [reflexivity|].
  split; [exact C|]. split; [rewrite R; reflexivity|].
  split; [rewrite Tr, HT; reflexivity|].
  split; [rewrite R'; reflexivity|].
  split; [rewrite Tr', HT'; reflexivity|].
  destruct (C1_dispatch_reauthenticates 5 POST "login"
              None None None None expired_world) as [H0 _]; [lia|].
  destruct H0 as [_ T0]; [reflexivity|]. exact T0.
Defined.

(** C3, as stated, fails on a 304: the status is neither 200 nor 401 nor
    any other success status, the body is JSON, and the login exchange
    returns [None] instead of raising the status error. *)
Lemma C3_not_modified_returns_none :
  let w := world ∅ [Arrives now (response 304)] in
  let r := fst (run (__get_vivintsky_session 3 "user" "pw") w) in
  status (response 304) <> 200 /\ status (response 304) <> 401 /\
  ~ (200 <= status (response 304) <= 299) /\
  r = Ok JNull /\ (forall e : exn, r <> Raise e).
Proof.
  cbv zeta. split; [discriminate|]. split; [discriminate|]. split.
  - simpl. lia.
  - split; [reflexivity|discriminate].
Defined.

(** C3 on four answers: an accepted login, a rejected one, a 500 and a 304. *)
Lemma C3_login_outcomes_witness :
  let login w := fst (run (__get_vivintsky_session 3 "user" "pw") w) in
  login (world ∅ [Arrives now login_ok]) = Ok (JDict [("u", JDict [("_id", JStr "abc")])]) /\
  login (world ∅ [Arrives now login_rejected])
  = Raise (VivintSkyApiAuthenticationError (JStr "Invalid credentials")) /\
  login (world ∅ [Arrives now (response 500)]) = Raise (ClientResponseError 500) /\
  login (world ∅ [Arrives now (response 304)]) = Ok JNull.
Proof.
  cbv zeta. split; [|split; [|split]].
  - apply (C3_login_outcomes 3 "user" "pw"
             (world ∅ [Arrives now login_ok]) now login_ok []
             (JDict [("u", JDict [("_id", JStr "abc")])]));
      [lia|reflexivity|reflexivity|reflexivity|reflexivity].
  - apply (C3_login_outcomes 3 "user" "pw"
             (world ∅ [Arrives now login_rejected]) now login_rejected []
             (JDict [("msg", JStr "Invalid credentials")]))
      with [("msg", JStr "Invalid credentials")];
      [lia|reflexivity|reflexivity|reflexivity|reflexivity|reflexivity|reflexivity].
  - apply (C3_login_outcomes 3 "user" "pw"
             (world ∅ [Arrives now (response 500)]) now (response 500) [] (JDict []));
      [lia|reflexivity|reflexivity|reflexivity|discriminate|discriminate|simpl; lia].
  - apply (C3_login_outcomes 3 "user" "pw"
             (world ∅ [Arrives now (response 304)]) now (response 304) [] (JDict []));
      [lia|reflexivity|reflexivity|reflexivity|discriminate|discriminate|simpl; lia].
Defined.

(** C9 on a login answered 200 with an empty object, and on an accepted
    login. *)
Lemma C9_connect_rejects_empty_payload_witness :
  fst (run (connect 4) (world ∅ [Arrives now (response 200)]))
  = Raise (VivintSkyApiAuthenticationError (JStr "Unable to login to Vivint.")) /\
  fst (run (connect 4) (world ∅ [Arrives now login_ok]))
  = Ok (JDict [("u", JDict [("_id", JStr "abc")])]) /\
  truthy (JDict [("u", JDict [("_id", JStr "abc")])]) = true.
Proof.
  split; [|split].
  - destruct (C9_connect_rejects_empty_payload 4
                (world ∅ [Arrives now (response 200)])) as [H _]; [lia|].
    destruct (H (JDict [])
                (snd (run (__get_vivintsky_session 3 "user@example.com" "secret")
                        (add_event (Called "connect")
                           (world ∅ [Arrives now (response 200)])))))
      as [E _]; [reflexivity|].
    rewrite E; reflexivity.
  - destruct (C9_connect_rejects_empty_payload 4
                (world ∅ [Arrives now login_ok])) as [H _]; [lia|].
    destruct (H (JDict [("u", JDict [("_id", JStr "abc")])])
                (snd (run (__get_vivintsky_session 3 "user@example.com" "secret")
                        (add_event (Called "connect")
                           (world ∅ [Arrives now login_ok])))))
      as [_ E]; [reflexivity|].
    rewrite E; reflexivity.
  - destruct (C9_connect_rejects_empty_payload 4
                (world ∅ [Arrives now login_ok])) as [_ H]; [lia|].
    apply (H (JDict [("u", JDict [("_id", JStr "abc")])])
             (snd (run (connect 4) (world ∅ [Arrives now login_ok])))).
    reflexivity.
Defined.

(** C10 on a client that made its session itself, and on one that was
    given a session. *)
Lemma C10_disconnect_closes_own_session_only_witness :
  closed (__client_session (self (snd (run disconnect own_session_world)))) = true /\
  trace (snd (run disconnect own_session_world)) = [SessionClosed] /\
  snd (run disconnect given_session_world) = given_session_world.
Proof.
  split; [|split].
  - apply (C10_disconnect_closes_own_session_only own_session_world). reflexivity.
  - apply (C10_disconnect_closes_own_session_only own_session_world). reflexivity.
  - apply (C10_disconnect_closes_own_session_only given_session_world). reflexivity.
Defined.


(** C8, as stated, fails: the two dispatches, each started before the other
    has logged in, enter [connect] twice. *)
Lemma C8_both_dispatches_connect :
  fst (run is_session_valid (snd two_dispatches)) = Ok false /\
  calls "connect"
    (trace (snd (run_schedule [0; 1; 0; 1; 0; 1]%nat two_dispatches))) = 2%nat /\
  ~ (calls "connect"
       (trace (snd (run_schedule [0; 1; 0; 1; 0; 1]%nat two_dispatches))) <= 1)%nat.
Proof.
  split; [reflexivity|].
  assert (E : calls "connect"
                (trace (snd (run_schedule [0; 1; 0; 1; 0; 1]%nat two_dispatches)))
              = 2%nat) by (vm_compute; reflexivity).
  split; [exact E|]. rewrite E. lia.
Defined.

(** C8 on the same pool, under another schedule. *)
Lemma C8_one_connect_per_dispatch_witness :
  calls "connect"
    (trace (snd (run_schedule [0; 1; 1; 1; 0; 0]%nat two_dispatches))) = 2%nat.
Proof.
  apply (C8_one_connect_per_dispatch 5 5 GET GET
           "authuser" "authuser" None None None None None None None None
           [1; 1; 0; 0]%nat (snd two_dispatches));
    [lia|lia|discriminate|discriminate|reflexivity].
Defined.

(** C4. Arming panel 1, partition 1 against a server that answers 403: the
    failure is logged, and then the call ends in the [AttributeError] of
    [self.id], not in [VivintSkyApiError].  Against 200 it completes. *)
Lemma C4_set_alarm_state_forbidden :
  let arm := set_alarm_state 5 1 1 4 in
  fst (run arm (valid_world (response 200))) = Ok tt /\
  fst (run arm (valid_world (response 403)))
  = Raise (AttributeError "VivintSkyApi" "id") /\
  last (trace (snd (run arm (valid_world (response 403)))))
  = Some (Logged "ERROR"
            "failed to set state ARMED_AWAY. Code: 403, body: ,request url: <RequestInfo>").
Proof. cbv zeta. split; [|split]; vm_compute; reflexivity. Qed.

(** C5. Asking for a thumbnail against a server that answers 500: the call
    ends in the [AttributeError] of [self.id], raised while the log message
    is built, so that nothing is logged either.  Against 204 it returns. *)
Lemma C5_request_camera_thumbnail_server_error :
  let ask := request_camera_thumbnail 5 1 1 7 in
  fst (run ask (valid_world (response 204))) = Ok tt /\
  fst (run ask (valid_world (response 500)))
  = Raise (AttributeError "VivintSkyApi" "id") /\
  trace (snd (run ask (valid_world (response 500))))
  = [Called "is_session_valid";
     Sent (api_request GET "1/1/7/request-camera-thumbnail" None None None None)].
Proof. cbv zeta. split; [|split]; vm_compute; reflexivity. Qed.

(** C6. Fetching the thumbnail address: a 302 gives the [Location] header
    as it is; a 404 ends in the [AttributeError] of [self.id] instead of
    returning [None]. *)
Lemma C6_get_camera_thumbnail_url_not_found :
  let fetch := get_camera_thumbnail_url 5 1 1 7 now in
  fst (run fetch (valid_world thumbnail_ready)) = Ok (Some "http://example/thumb.jpg") /\
  fst (run fetch (valid_world (response 404)))
  = Raise (AttributeError "VivintSkyApi" "id").
Proof. cbv zeta. split; vm_compute; reflexivity. Qed.

(** * More sample runs

    Here the constants are [Scenario.constants]. *)

Import Scenario.

(** X1 on a client with a session good until 2027. *)
Lemma dispatch_with_valid_session_witness :
  calls "connect"
    (trace (snd (run (__call 1 GET "authuser" None None None None)
                   (valid_world (response 200))))) = 0%nat /\
  trace (snd (run (__call 1 GET "authuser" None None None None)
                (valid_world (response 200))))
  = [Called "is_session_valid"; Sent (api_request GET "authuser" None None None None)].
Proof.
  destruct (dispatch_with_valid_session 1 GET "authuser" None None None None
              (valid_world (response 200))) as (_ & T & C);
    [lia|discriminate|reflexivity|].
  split; [exact C|exact T].
Defined.

(** X2 on a client whose session cookie has no expiry date. *)
Lemma dispatch_with_unreadable_expiry_witness :
  run (__call 5 GET "authuser" None None None None)
      (world (jar_with session_only_cookie) [Arrives now (response 200)])
  = (Raise (ValueError "time data does not match format"),
     add_event (Called "is_session_valid")
       (world (jar_with session_only_cookie) [Arrives now (response 200)])).
Proof.
  apply (dispatch_with_unreadable_expiry 5 GET "authuser" None None None None
           (world (jar_with session_only_cookie) [Arrives now (response 200)])
           session_only_cookie);
    [lia|discriminate|reflexivity|reflexivity].
Defined.

(** X3 on the client whose session ran out: with a server that accepts the
    login the request goes out and its answer comes back; with one that
    refuses it, the refusal is raised and the request is not sent. *)
Lemma dispatch_after_login_witness :
  fst (run (__call 5 GET "authuser" None None None None) expired_world)
  = Ok (response 200) /\
  run (__call 5 GET "authuser" None None None None) rejected_world
  = (Raise (VivintSkyApiAuthenticationError (JStr "Invalid credentials")),
     answered (login_request "user@example.com" "secret")
       [Called "is_session_valid"; Called "connect";
        Sent (login_request "user@example.com" "secret")]
       now login_rejected [] rejected_world).
Proof.
  split.
  - rewrite (dispatch_after_login 5 GET "authuser" None None None None expired_world
               now login_ok [Arrives now (response 200)]);
      [reflexivity|lia|discriminate|reflexivity|reflexivity|reflexivity].
  - rewrite (dispatch_after_login 5 GET "authuser" None None None None rejected_world
               now login_rejected []);
      [reflexivity|lia|discriminate|reflexivity|reflexivity|reflexivity].
Defined.

(** X4 on a client made without a session. *)
Lemma first_dispatch_logs_in_witness :
  fst (run is_session_valid own_session_world) = Ok false /\
  exists later : list event,
    trace (snd (run (__call 5 GET "authuser" None None None None) own_session_world))
    = [Called "is_session_valid"; Called "connect"; Sent (login_request "user" "pw")]
      ++ later.
Proof.
  apply (first_dispatch_logs_in 5 GET "authuser" None None None None
           own_session_world "user" "pw"); [lia|discriminate|reflexivity].
Defined.

(** X5 on a client whose session is still good. *)
Lemma connect_always_logs_in_witness :
  trace (snd (run (connect 4) (valid_world login_ok)))
  = [Called "connect"; Sent (login_request "user@example.com" "secret")].
Proof.
  apply (connect_always_logs_in 4 (valid_world login_ok)); [lia|reflexivity].
Defined.

(** X6 on an answer 200 with a body and on an answer 500. *)
Lemma get_authuser_data_outcomes_witness :
  fst (run (get_authuser_data 1) (valid_world login_ok))
  = Ok (JDict [("u", JDict [("_id", JStr "abc")])]) /\
  fst (run (get_authuser_data 1) (valid_world (response 500)))
  = Raise (VivintSkyApiAuthenticationError (JStr "Missing auth user data.")).
Proof.
  split.
  - destruct (get_authuser_data_outcomes 1 (valid_world login_ok) now login_ok [])
      as (_ & H & _); [lia|reflexivity|reflexivity|reflexivity|].
    apply H; reflexivity.
  - destruct (get_authuser_data_outcomes 1 (valid_world (response 500)) now
                (response 500) [])
      as (_ & _ & H); [lia|reflexivity|reflexivity|reflexivity|].
    apply H. discriminate.
Defined.

(** X7 on an answer 200 with a body and on an answer 404. *)
Lemma get_panel_credentials_outcomes_witness :
  fst (run (get_panel_credentials 1 42) (valid_world login_ok))
  = Ok (JDict [("u", JDict [("_id", JStr "abc")])]) /\
  fst (run (get_panel_credentials 1 42) (valid_world (response 404)))
  = Raise (VivintSkyApiAuthenticationError
             (JStr "Unable to retrieve panel credentials.")).
Proof.
  split.
  - destruct (get_panel_credentials_outcomes 1 42 (valid_world login_ok) now login_ok [])
      as (_ & H & _); [lia|reflexivity|reflexivity|reflexivity|].
    apply H; reflexivity.
  - destruct (get_panel_credentials_outcomes 1 42 (valid_world (response 404)) now
                (response 404) [])
      as (_ & _ & H); [lia|reflexivity|reflexivity|reflexivity|].
    apply H. discriminate.
Defined.

(** X8 on an answer 200 with a body and on an answer 503. *)
Lemma get_system_data_outcomes_witness :
  fst (run (get_system_data 1 42) (valid_world login_ok))
  = Ok (JDict [("u", JDict [("_id", JStr "abc")])]) /\
  fst (run (get_system_data 1 42) (valid_world (response 503)))
  = Raise (VivintSkyApiError "Unable to retrieve system data.").
Proof.
  split.
  - destruct (get_system_data_outcomes 1 42 (valid_world login_ok) now login_ok [])
      as (_ & H & _); [lia|reflexivity|reflexivity|reflexivity|].
    apply H; reflexivity.
  - destruct (get_system_data_outcomes 1 42 (valid_world (response 503)) now
                (response 503) [])
      as (_ & _ & H); [lia|reflexivity|reflexivity|reflexivity|].
    apply H. discriminate.
Defined.

(** X9: closing door 7 of panel 1, partition 2, against 200 and against 403. *)
Lemma set_garage_door_state_outcomes_witness :
  fst (run (set_garage_door_state 1 1 2 7 1) (valid_world (response 200))) = Ok tt /\
  fst (run (set_garage_door_state 1 1 2 7 1) (valid_world (response 403)))
  = Raise (VivintSkyApiError "failed to update garage door state") /\
  last (trace (snd (run (set_garage_door_state 1 1 2 7 1) (valid_world (response 403)))))
  = Some (Logged "INFO" "failed to set state to CLOSED for garage door: 7 @ 1:2").
Proof.
  destruct (set_garage_door_state_outcomes 1 1 2 7 1 (valid_world (response 200)) now
              (response 200) []) as [H200 _];
    [lia|reflexivity|reflexivity|reflexivity|].
  destruct (set_garage_door_state_outcomes 1 1 2 7 1 (valid_world (response 403)) now
              (response 403) []) as [_ H403];
    [lia|reflexivity|reflexivity|reflexivity|].
  destruct H403 as [H403 _]; [discriminate|].
  split; [|split].
  - rewrite H200; reflexivity.
  - rewrite (H403 "CLOSED" eq_refl). reflexivity.
  - rewrite (H403 "CLOSED" eq_refl). reflexivity.
Defined.

(** X10: locking lock 7 of panel 1, partition 2, against 200 and against 403. *)
Lemma set_lock_state_outcomes_witness :
  fst (run (set_lock_state 1 1 2 7 true) (valid_world (response 200))) = Ok tt /\
  fst (run (set_lock_state 1 1 2 7 true) (valid_world (response 403)))
  = Raise (VivintSkyApiError "failed to update lock status") /\
  last (trace (snd (run (set_lock_state 1 1 2 7 true) (valid_world (response 403)))))
  = Some (Logged "INFO" "failed to set status locked: True for lock: 7 @ 1:2").
Proof.
  destruct (set_lock_state_outcomes 1 1 2 7 true (valid_world (response 200)) now
              (response 200) []) as [H200 _];
    [lia|reflexivity|reflexivity|reflexivity|].
  destruct (set_lock_state_outcomes 1 1 2 7 true (valid_world (response 403)) now
              (response 403) []) as [_ H403];
    [lia|reflexivity|reflexivity|reflexivity|].
  split; [|split].
  - rewrite H200; reflexivity.
  - rewrite H403; [reflexivity|discriminate].
  - rewrite H403; [reflexivity|discriminate].
Defined.

(** X11: arming panel 1, partition 2, against 200 and against 500. *)
Lemma set_alarm_state_outcomes_witness :
  fst (run (set_alarm_state 1 1 2 3) (valid_world (response 200))) = Ok tt /\
  fst (run (set_alarm_state 1 1 2 3) (valid_world (response 500)))
  = Raise (AttributeError "VivintSkyApi" "id").
Proof.
  destruct (set_alarm_state_outcomes 1 1 2 3 (valid_world (response 200)) now
              (response 200) []) as [H200 _];
    [lia|reflexivity|reflexivity|reflexivity|].
  destruct (set_alarm_state_outcomes 1 1 2 3 (valid_world (response 500)) now
              (response 500) []) as [_ H500];
    [lia|reflexivity|reflexivity|reflexivity|].
  destruct H500 as [H500 _]; [discriminate|].
  split.
  - rewrite H200; reflexivity.
  - rewrite (H500 "ARMED_STAY" eq_refl). reflexivity.
Defined.

(** X12 against 202 and against 199. *)
Lemma request_camera_thumbnail_outcomes_witness :
  fst (run (request_camera_thumbnail 1 1 2 7) (valid_world (response 202))) = Ok tt /\
  fst (run (request_camera_thumbnail 1 1 2 7) (valid_world (response 199)))
  = Raise (AttributeError "VivintSkyApi" "id").
Proof.
  destruct (request_camera_thumbnail_outcomes 1 1 2 7 (valid_world (response 202)) now
              (response 202) []) as [Hin _];
    [lia|reflexivity|reflexivity|reflexivity|].
  destruct (request_camera_thumbnail_outcomes 1 1 2 7 (valid_world (response 199)) now
              (response 199) []) as [_ Hout];
    [lia|reflexivity|reflexivity|reflexivity|].
  split.
  - rewrite Hin; [reflexivity|simpl; lia].
  - rewrite Hout; [reflexivity|left; simpl; lia].
Defined.

(** X13 against a redirect, against a redirect without address and against
    200. *)
Lemma get_camera_thumbnail_url_outcomes_witness :
  fst (run (get_camera_thumbnail_url 1 1 2 7 now) (valid_world thumbnail_ready))
  = Ok (Some "http://example/thumb.jpg") /\
  fst (run (get_camera_thumbnail_url 1 1 2 7 now) (valid_world bare_redirect))
  = Ok None /\
  fst (run (get_camera_thumbnail_url 1 1 2 7 now) (valid_world (response 200)))
  = Raise (AttributeError "VivintSkyApi" "id").
Proof.
  split; [|split].
  - destruct (get_camera_thumbnail_url_outcomes 1 1 2 7 now
                (valid_world thumbnail_ready) now thumbnail_ready []) as [H _];
      [lia|reflexivity|reflexivity|reflexivity|].
    rewrite H; reflexivity.
  - destruct (get_camera_thumbnail_url_outcomes 1 1 2 7 now
                (valid_world bare_redirect) now bare_redirect []) as [H _];
      [lia|reflexivity|reflexivity|reflexivity|].
    rewrite H; reflexivity.
  - destruct (get_camera_thumbnail_url_outcomes 1 1 2 7 now
                (valid_world (response 200)) now (response 200) []) as [_ H];
      [lia|reflexivity|reflexivity|reflexivity|].
    rewrite H; [reflexivity|discriminate].
Defined.

(** X15 on a client with one entry in its cache: after the lookup of
    another device the entry is still there. *)
Lemma zwave_cache_only_grows_witness :
  __zwave_device_info (self (snd (run (get_zwave_details 1 2 3) cached_world)))
    !! "9:9:9" = Some ["Other Co"; "Siren"].
Proof.
  apply (zwave_cache_only_grows 1 2 3 cached_world). reflexivity.
Defined.

(** X16 on the page of device 1:2:3. *)
Lemma zwave_details_join_to_title_witness :
  exists parts : list string,
    fst (run (get_zwave_details 1 2 3) (world ∅ [Arrives now acme_page]))
    = Ok (Some parts) /\
    parts <> [] /\ join " - " parts = "Acme Co - Door Sensor".
Proof.
  apply (zwave_details_join_to_title 1 2 3 (world ∅ [Arrives now acme_page])
           now acme_page []);
    reflexivity.
Defined.

(** X17 on the cache with device 9:9:9 and the lookup of device 1:2:3. *)
Lemma zwave_lookups_do_not_mix_witness :
  zwave_key 1 2 3 <> zwave_key 9 9 9 /\
  __zwave_device_info (self (snd (run (get_zwave_details 1 2 3) cached_world)))
    !! zwave_key 9 9 9
  = __zwave_device_info (self cached_world) !! zwave_key 9 9 9.
Proof.
  apply (zwave_lookups_do_not_mix 1 2 3 9 9 9 cached_world). left. discriminate.
Defined.

(** X18 on two lookups of device 1:2:3 by a client with an empty cache. *)
Lemma concurrent_lookups_both_fetch_witness :
  trace (snd (run_schedule [0; 1]%nat
                ([Ready (get_zwave_details 1 2 3); Ready (get_zwave_details 1 2 3)],
                 world ∅ [Arrives now acme_page; Arrives now acme_page])))
  = [Sent (zwave_request "1:2:3"); Sent (zwave_request "1:2:3")].
Proof.
  destruct (concurrent_lookups_both_fetch 1 2 3
              (world ∅ [Arrives now acme_page; Arrives now acme_page]))
    as (k1 & k2 & E); [reflexivity|].
  rewrite E. reflexivity.
Defined.

(** X19 on a page that is no JSON and on a refusal without a message. *)
Lemma login_reads_body_first_witness :
  fst (run (__get_vivintsky_session 3 "user" "pw") (world ∅ [Arrives now gateway_page]))
  = Raise ContentTypeError /\
  fst (run (__get_vivintsky_session 3 "user" "pw")
         (world ∅ [Arrives now rejected_without_msg]))
  = Raise (KeyError "msg").
Proof.
  split.
  - apply (login_reads_body_first 3 "user" "pw" (world ∅ [Arrives now gateway_page])
             now gateway_page []); [lia|reflexivity|reflexivity|reflexivity].
  - apply (login_reads_body_first 3 "user" "pw"
             (world ∅ [Arrives now rejected_without_msg]) now rejected_without_msg [])
      with [("error", JStr "denied")];
      [lia|reflexivity|reflexivity|reflexivity|reflexivity|reflexivity].
Defined.

(** X20 on a page without a title and on an answer 204. *)
Lemma zwave_lookup_without_details_witness :
  fst (run (get_zwave_details 1 2 3) (world ∅ [Arrives now gateway_page]))
  = Raise (TypeError "'NoneType' object is not subscriptable") /\
  fst (run (get_zwave_details 1 2 3) (world ∅ [Arrives now (response 204)])) = Ok None.
Proof.
  split.
  - destruct (zwave_lookup_without_details 1 2 3 (world ∅ [Arrives now gateway_page])
                now gateway_page []) as [H _]; [reflexivity|reflexivity|].
    rewrite H; reflexivity.
  - destruct (zwave_lookup_without_details 1 2 3 (world ∅ [Arrives now (response 204)])
                now (response 204) []) as [_ H]; [reflexivity|reflexivity|].
    rewrite H; [reflexivity|discriminate|simpl; lia].
Defined.
